(** * simple_server.py: the request router of the Solana trading platform server

    A shallow embedding of [SolanaHandler.do_GET] and [SolanaHandler.handle_api]
    (src/simple_server.py) and the properties of the routing, static-file and
    API paths.

    The handler is embedded at the boundary of the Python standard library:
    every call it makes into [http.server] ([send_response], [send_header],
    [end_headers], [wfile.write]), to [open], to [print] and to the clock is
    recorded, in order, in the run of the handler.  What the library does
    below that boundary (the status line and the [Server] and [Date] headers
    that [send_response] adds, the socket) is not part of the embedding. *)

From Stdlib Require Import ZArith QArith Lia List Ascii String.
From Stdlib.Strings Require Import Byte.
From Stdlib Require Import DecimalString.
From Stdlib Require DecimalPos.
From stdpp Require Import base option gmap strings.
Import ListNotations.

Local Open Scope string_scope.
Local Open Scope Z_scope.

(** ** Python values used by the handler *)

Module Py.

(** [bytes] objects. *)
Definition bytes := list byte.

(** A bytes literal [b'...'] whose characters are all ASCII. *)
Definition b (s : string) : bytes := list_byte_of_string s.

(** The exceptions that the calls of the handler can raise.  [OSError]
    stands for a filesystem error of no more specific class. *)
Inductive exn : Type :=
| FileNotFoundError
| PermissionError
| IsADirectoryError
| NotADirectoryError
| OSError
| ValueError.

Definition exn_eqb (e1 e2 : exn) : bool :=
  match e1, e2 with
  | FileNotFoundError, FileNotFoundError => true
  | PermissionError, PermissionError => true
  | IsADirectoryError, IsADirectoryError => true
  | NotADirectoryError, NotADirectoryError => true
  | OSError, OSError => true
  | ValueError, ValueError => true
  | _, _ => false
  end.

(** The result of a call: a value, or an exception raised. *)
Inductive result (A : Type) : Type :=
| Ok (a : A)
| Raise (e : exn).
Arguments Ok {A} a.
Arguments Raise {A} e.

(** *** str methods *)

(** [s.startswith(prefix)] *)
Definition startswith (s pre : string) : bool := String.prefix pre s.

(** [s.endswith(suffix)]: the last [len(suffix)] characters of [s] are
    [suffix]. *)
Definition endswith (s suf : string) : bool :=
  let n := String.length s in
  let k := String.length suf in
  if (k <=? n)%nat then String.eqb (substring (n - k) k s) suf else false.

(** [s.endswith((suf1, suf2, ...))]: a tuple of suffixes. *)
Definition endswith_any (s : string) (sufs : list string) : bool :=
  existsb (endswith s) sufs.

(** [c in s] for a one-character [c]. *)
Fixpoint contains (c : ascii) (s : string) : bool :=
  match s with
  | EmptyString => false
  | String a r => if Ascii.eqb a c then true else contains c r
  end.

(** [s.split(c, 1)] as used after a test [c in s]: the text before the
    first [c], and the text after it ([None] when [c] does not occur). *)
Fixpoint split1 (c : ascii) (s : string) : string * option string :=
  match s with
  | EmptyString => (EmptyString, None)
  | String a r =>
      if Ascii.eqb a c then (EmptyString, Some r)
      else let '(h, t) := split1 c r in (String a h, t)
  end.

(** [s.find(c, start)]: the least index [i >= start] with [s[i] = c]. *)
Fixpoint find_from (c : ascii) (start : nat) (s : string) : option nat :=
  match s with
  | EmptyString => None
  | String a r =>
      match start with
      | O => if Ascii.eqb a c then Some O else S <$> find_from c O r
      | S start' => S <$> find_from c start' r
      end
  end.

(** [s.rfind(c)]: the greatest index [i] with [s[i] = c]. *)
Fixpoint rfind (c : ascii) (s : string) : option nat :=
  match s with
  | EmptyString => None
  | String a r =>
      match rfind c r with
      | Some i => Some (S i)
      | None => if Ascii.eqb a c then Some O else None
      end
  end.

(** Slices [s[:i]] and [s[i:]]. *)
Definition slice_to (i : nat) (s : string) : string := substring 0 i s.
Definition slice_from (i : nat) (s : string) : string :=
  substring i (String.length s - i) s.

(** *** int and float rendering *)

(** [repr] of an int: decimal digits, with a minus sign below zero. *)
Definition repr_int (z : Z) : string := NilZero.string_of_int (Z.to_int z).

(** The C conversion [%02d] that [strftime] uses for the two-digit
    fields. *)
Definition zfill2 (z : Z) : string :=
  if (0 <=? z) && (z <? 10) then "0" +:+ repr_int z else repr_int z.

(** A float written in the source as a decimal literal with [scale]
    digits after the point: [digits * 10^-scale].  The literals of the
    source are short enough for [repr] of the nearest double to print the
    literal back, which is how [float_repr] renders them. *)
Record float_lit : Type := FloatLit { digits : Z; scale : nat }.

Definition float_value (f : float_lit) : Q :=
  Qmake (digits f) (Z.to_pos (10 ^ Z.of_nat (scale f))).

Fixpoint zfill (width : nat) (s : string) : string :=
  match (width - String.length s)%nat with
  | O => s
  | S _ =>
      match width with
      | O => s
      | S w' => "0" +:+ zfill w' s
      end
  end.

Definition float_repr (f : float_lit) : string :=
  let p := 10 ^ Z.of_nat (scale f) in
  let a := Z.abs (digits f) in
  (if digits f <? 0 then "-" else "") +:+
  repr_int (a / p) +:+ "." +:+ zfill (scale f) (repr_int (a mod p)).

(** *** str.encode() *)

(** UTF-8 encoding of a character below U+0100: one byte below U+0080, two
    bytes from there on. *)
Definition utf8_char (c : ascii) : bytes :=
  let n := nat_of_ascii c in
  if (n <? 128)%nat then [byte_of_ascii c]
  else [byte_of_ascii (ascii_of_nat (192 + n / 64));
        byte_of_ascii (ascii_of_nat (128 + n mod 64))].

(** [s.encode()] *)
Definition encode (s : string) : bytes :=
  flat_map utf8_char (list_ascii_of_string s).

(** *** json.dumps, with its default arguments *)

(** The values that the handler serialises.  A dict keeps the order in
    which its keys were inserted, and [dumps] writes them in that order. *)
#[warnings="-register-all"]
Inductive json : Type :=
| JNone
| JBool (v : bool)
| JInt (z : Z)
| JFloat (f : float_lit)
| JStr (s : string)
| JList (l : list json)
| JDict (items : list (string * json)).

Definition dquote : string := String "034"%char EmptyString.
Definition backslash : string := String "092"%char EmptyString.

Definition hex_digit (n : nat) : ascii :=
  if (n <? 10)%nat then ascii_of_nat (48 + n) else ascii_of_nat (87 + n).

(** One character of a string under [ensure_ascii=True]: the short escapes,
    [\u00xx] for every other character outside [' '..'~'], the character
    itself otherwise. *)
Definition escape_char (c : ascii) : string :=
  let n := nat_of_ascii c in
  if (n =? 34)%nat then backslash +:+ dquote
  else if (n =? 92)%nat then backslash +:+ backslash
  else if (n =? 10)%nat then backslash +:+ "n"
  else if (n =? 13)%nat then backslash +:+ "r"
  else if (n =? 9)%nat then backslash +:+ "t"
  else if (n =? 8)%nat then backslash +:+ "b"
  else if (n =? 12)%nat then backslash +:+ "f"
  else if (n <? 32)%nat || (126 <? n)%nat then
    backslash +:+ "u00" +:+
    String (hex_digit (n / 16)) (String (hex_digit (n mod 16)) EmptyString)
  else String c EmptyString.

Fixpoint escape (s : string) : string :=
  match s with
  | EmptyString => EmptyString
  | String c r => escape_char c +:+ escape r
  end.

Definition encode_basestring (s : string) : string :=
  dquote +:+ escape s +:+ dquote.

(** [sep.join(parts)] *)
Fixpoint join (sep : string) (parts : list string) : string :=
  match parts with
  | [] => EmptyString
  | [x] => x
  | x :: rest => x +:+ sep +:+ join sep rest
  end.

Fixpoint dumps (j : json) : string :=
  match j with
  | JNone => "null"
  | JBool true => "true"
  | JBool false => "false"
  | JInt z => repr_int z
  | JFloat f => float_repr f
  | JStr s => encode_basestring s
  | JList l => "[" +:+ join ", " (List.map dumps l) +:+ "]"
  | JDict items =>
      "{" +:+
      join ", "
        (List.map (fun kv => encode_basestring (fst kv) +:+ ": " +:+ dumps (snd kv))
           items) +:+
      "}"
  end.

(** [d[key]] on a serialised dict, [None] on a missing key or on a value
    that is not a dict. *)
Fixpoint assoc (key : string) (items : list (string * json)) : option json :=
  match items with
  | [] => None
  | (k, v) :: rest => if String.eqb k key then Some v else assoc key rest
  end.

Definition get (key : string) (j : json) : option json :=
  match j with
  | JDict items => assoc key items
  | _ => None
  end.

Definition keys (j : json) : list string :=
  match j with
  | JDict items => List.map fst items
  | _ => []
  end.

(** *** time.gmtime and time.strftime *)

(** The fields of the [struct_time] that [strftime] reads for the
    handler's format.  A [struct_time] has whole seconds and nothing
    finer. *)
Record struct_time : Type := StructTime {
  tm_year : Z;
  tm_mon : Z;
  tm_mday : Z;
  tm_hour : Z;
  tm_min : Z;
  tm_sec : Z
}.

(** The ranges of the fields of a [struct_time] that [gmtime] returns, for
    the years that print with four digits. *)
Definition gmtime_range (t : struct_time) : Prop :=
  1000 <= tm_year t <= 9999 /\ 1 <= tm_mon t <= 12 /\ 1 <= tm_mday t <= 31 /\
  0 <= tm_hour t <= 23 /\ 0 <= tm_min t <= 59 /\ 0 <= tm_sec t <= 61.

(** One conversion of a [strftime] format. *)
Definition directive (c : ascii) (t : struct_time) : string :=
  if Ascii.eqb c "Y" then repr_int (tm_year t)
  else if Ascii.eqb c "m" then zfill2 (tm_mon t)
  else if Ascii.eqb c "d" then zfill2 (tm_mday t)
  else if Ascii.eqb c "H" then zfill2 (tm_hour t)
  else if Ascii.eqb c "M" then zfill2 (tm_min t)
  else if Ascii.eqb c "S" then zfill2 (tm_sec t)
  else if Ascii.eqb c "%" then "%"
  else String "%" (String c EmptyString).

(** [time.strftime(fmt, t)] for the conversions above; every other
    character of the format is copied. *)
Fixpoint strftime (fmt : string) (t : struct_time) : string :=
  match fmt with
  | EmptyString => EmptyString
  | String c rest =>
      if Ascii.eqb c "%" then
        match rest with
        | EmptyString => String c EmptyString
        | String d rest' => directive d t +:+ strftime rest' t
        end
      else String c (strftime rest t)
  end.

(** *** urllib.parse.urlparse *)

Record ParseResult : Type := {
  scheme : string;
  netloc : string;
  path : string;
  params : string;
  query : string;
  fragment : string
}.

(** [_splitparams(url)], called when [';' in url]: the parameters are cut
    from the last segment of the path only. *)
Definition _splitparams (url : string) : string * string :=
  let cut i := (slice_to i url, slice_from (S i) url) in
  if contains "/" url then
    match find_from ";" (default O (rfind "/" url)) url with
    | None => (url, EmptyString)
    | Some i => cut i
    end
  else cut (default O (find_from ";" O url)).

(** A request target in origin form, as [http.server] hands it to [do_GET]:
    it starts with one slash, and being a word of the request line it has no
    tab, line feed or carriage return.  Targets that start with a scheme or
    with two slashes go through the scheme and network-location steps of
    [urlsplit], and recent versions of [urlsplit] delete tabs and line
    breaks; both differ between Python versions and are not part of
    [urlparse_origin_form]. *)
Definition origin_form (url : string) : bool :=
  startswith url "/" && negb (startswith url "//") &&
  negb (contains "009" url) && negb (contains "010" url) &&
  negb (contains "013" url).

(** [urlparse(url)] on a request target in origin form.  No scheme and no
    network location are found there; [urlsplit] cuts the fragment at the
    first ['#'], then the query at the first ['?'], and [urlparse] cuts the
    parameters (the empty scheme is one of [uses_params]). *)
Definition urlparse_origin_form (url : string) : result ParseResult :=
  let '(url, fragment) := split1 "#" url in
  let '(url, query) := split1 "?" url in
  let '(url, params) :=
    if contains ";" url then _splitparams url else (url, EmptyString) in
  Ok {| scheme := EmptyString; netloc := EmptyString; path := url;
        params := params; query := default EmptyString query;
        fragment := default EmptyString fragment |}.

End Py.

(** ** The effects of a request handler *)

Module Effects.
Import Py.

(** What the handler does to the outside, in the order it does it: a line
    on standard output, an attempt to open a file, and the calls into
    [BaseHTTPRequestHandler].  An event records the call and nothing of what
    the library does inside it: [SendResponse] stands for the call of
    [send_response], not for the [Server] and [Date] headers that the call
    adds (module [Wire] has them).  The calls into the base class and
    [print] are taken to return: a [wfile.write] that raises because the
    client has gone, or a [print] that cannot encode its line, is outside
    the embedding, and no statement below is about those errors.  The
    release of the file at the end of a [with] block is not an event. *)
Inductive event : Type :=
| Print (line : string)
| Open (name : string)
| SendResponse (code : Z)
| SendHeader (keyword value : string)
| EndHeaders
| WfileWrite (data : bytes).

(** An open binary file: what [file.read()] returns or raises. *)
Record file : Type := File { read : result bytes }.

(** What the handler reads from the outside: the files under the current
    directory ([open(name, 'rb')] returns a file or raises), the
    environment variables, and the clock (the n-th call of [time.gmtime()]
    during the request returns [clock n]). *)
Record world : Type := World {
  fs : string -> result file;
  environ : gmap string string;
  clock : nat -> struct_time
}.

(** A run of handler code: its result, the events it emitted, and the
    number of clock readings made so far. *)
Record run (A : Type) : Type := Run {
  outcome : result A;
  emitted : list event;
  reads : nat
}.
Arguments Run {A} outcome emitted reads.
Arguments outcome {A} r.
Arguments emitted {A} r.
Arguments reads {A} r.

Definition H (A : Type) : Type := world -> nat -> run A.

#[export] Instance H_ret : MRet H := fun A a _ n => Run (Ok a) [] n.

(** Sequencing: an exception raised by the first part skips the second;
    the events emitted before it stay emitted. *)
#[export] Instance H_bind : MBind H := fun A B k m w n =>
  match m w n with
  | Run (Ok a) ev c =>
      match k a w c with
      | Run o ev' c' => Run o (ev ++ ev') c'
      end
  | Run (Raise e) ev c => Run (Raise e) ev c
  end.

Definition emit (e : event) : H unit := fun _ n => Run (Ok tt) [e] n.

(** A pure library call that returns or raises. *)
Definition call {A : Type} (r : result A) : H A := fun _ n => Run r [] n.

(** [try: body except cls: handler], for an exception class [cls] without
    subclasses. *)
Definition try_except {A : Type} (body : H A) (cls : exn) (handler : H A) : H A :=
  fun w n =>
    match body w n with
    | Run (Ok a) ev c => Run (Ok a) ev c
    | Run (Raise e) ev c =>
        if exn_eqb e cls then
          match handler w c with
          | Run o ev' c' => Run o (ev ++ ev') c'
          end
        else Run (Raise e) ev c
    end.

Definition print (line : string) : H unit := emit (Print line).
Definition send_response (code : Z) : H unit := emit (SendResponse code).
Definition send_header (keyword value : string) : H unit :=
  emit (SendHeader keyword value).
Definition end_headers : H unit := emit EndHeaders.
Definition wfile_write (data : bytes) : H unit := emit (WfileWrite data).

(** [open(name, 'rb')] *)
Definition open (name : string) : H file :=
  fun w n => Run (fs w name) [Open name] n.

(** [file.read()] *)
Definition file_read (f : file) : H bytes := call (read f).

(** [name in os.environ] *)
Definition in_environ (name : string) : H bool :=
  fun w n => Run (Ok (bool_decide (is_Some (environ w !! name)))) [] n.

(** [time.gmtime()] *)
Definition gmtime : H struct_time :=
  fun w n => Run (Ok (clock w n)) [] (S n).

(** [x or y] *)
Definition py_or (x y : bool) : bool := if x then x else y.

(** The HTTP response of a run: the calls into the request handler base
    class, without the log lines and the file opens. *)
Definition is_http (e : event) : bool :=
  match e with
  | SendResponse _ | SendHeader _ _ | EndHeaders | WfileWrite _ => true
  | Print _ | Open _ => false
  end.

Definition response {A : Type} (r : run A) : list event :=
  List.filter is_http (emitted r).

(** The names of the files that a run tried to open. *)
Definition opened {A : Type} (r : run A) : list string :=
  flat_map (fun e => match e with Open name => [name] | _ => [] end) (emitted r).

End Effects.

(** ** The handler *)

Module SolanaHandler.
Import Py Effects.

(** The [time.strftime('%Y-%m-%dT%H:%M:%S.000Z', t)] of both timestamped
    routes. *)
Definition timestamp (t : struct_time) : string :=
  strftime "%Y-%m-%dT%H:%M:%S.000Z" t.

(** The dict literal of the [/api/health] branch. *)
Definition health_response : json :=
  JDict [
    ("status", JStr "ok");
    ("message", JStr "Solana Trading Platform server is running")
  ].

(** The dict literal of the [/api/solana/status] branch; [now] is the
    [time.gmtime()] read while the literal is evaluated. *)
Definition status_response (has_api_key has_instant_nodes : bool)
    (now : struct_time) : json :=
  JDict [
    ("status", JStr "operational");
    ("customRpc", JBool has_instant_nodes);
    ("apiKey", JBool (py_or has_api_key true));
    ("network", JStr "mainnet-beta");
    ("timestamp", JStr (timestamp now))
  ].

(** The list literal of the [/api/agents] branch; [now1] and [now2] are
    the two [time.gmtime()] reads, in the order in which the literal
    evaluates them. *)
Definition agents_response (now1 now2 : struct_time) : json :=
  JList [
    JDict [
      ("id", JStr "hyperion-1");
      ("name", JStr "Hyperion Flash Arbitrage");
      ("type", JStr "hyperion");
      ("status", JStr "idle");
      ("active", JBool true);
      ("wallets", JDict [
        ("trading", JStr "HN7cABqLq46Es1jh92dQQisAq662SmxELLLsHHe5tHE2");
        ("profit", JStr "2xNwwA8DmH5AsLhBjevvkPzTnpvH6Zz4pQ7bvQD9rtkf");
        ("fee", JStr "4z1PvJnKZcnLSJYGRNdZn7eYAUkKRiUJJW6Kcmt2hiEX");
        ("stealth", JList [JStr "3Y7T8oBSHUb81uetPjjzSBdGe6RN2rTZ3NEN1xQ6mVi4"])
      ]);
      ("metrics", JDict [
        ("totalExecutions", JInt 157);
        ("successRate", JFloat (FloatLit 92 2));
        ("totalProfit", JFloat (FloatLit 2345 2));
        ("lastExecution", JStr (timestamp now1))
      ])
    ];
    JDict [
      ("id", JStr "quantum-omega-1");
      ("name", JStr "Quantum Omega Sniper");
      ("type", JStr "quantum_omega");
      ("status", JStr "idle");
      ("active", JBool true);
      ("wallets", JDict [
        ("trading", JStr "5FHwkrdxD5oNU3DwPWbxLQkd5Za4rQXQDkxMZvHzLkSr");
        ("profit", JStr "7XvgVxyh5cQeb9PdiUJZBbyYAqNz8JfwbFGPn6HvhNxW");
        ("fee", JStr "3WPBgP3Mcv2XTf6Sq8QNLegzVMhGp4w1mYhRK5o3bzJ7");
        ("stealth", JList [JStr "3Y7T8oBSHUb81uetPjjzSBdGe6RN2rTZ3NEN1xQ6mVi4";
                           JStr "9Y7T8oBSHUb81uetPjjzSBdGe6RN2rTZ3NEN1xQ6mVqW"])
      ]);
      ("metrics", JDict [
        ("totalExecutions", JInt 82);
        ("successRate", JFloat (FloatLit 88 2));
        ("totalProfit", JFloat (FloatLit 1476 2));
        ("lastExecution", JStr (timestamp now2))
      ])
    ]
  ].

(** The dict literal of the last branch. *)
Definition not_found_response : json :=
  JDict [("error", JStr "API endpoint not found")].

(** [handle_api(self, path)] *)
Definition handle_api (path : string) : H unit :=
  send_header "Content-type" "application/json";;
  if String.eqb path "/api/health" then
    send_response 200;;
    end_headers;;
    let response := health_response in
    wfile_write (encode (dumps response))
  else if String.eqb path "/api/solana/status" then
    send_response 200;;
    end_headers;;
    has_api_key ← in_environ "SOLANA_RPC_API_KEY";
    has_instant_nodes ← in_environ "INSTANT_NODES_RPC_URL";
    now ← gmtime;
    let response := status_response has_api_key has_instant_nodes now in
    wfile_write (encode (dumps response))
  else if String.eqb path "/api/agents" then
    send_response 200;;
    end_headers;;
    now1 ← gmtime;
    now2 ← gmtime;
    let agents := agents_response now1 now2 in
    wfile_write (encode (dumps agents))
  else
    send_response 404;;
    end_headers;;
    let response := not_found_response in
    wfile_write (encode (dumps response)).

(** The [if]/[elif] chain of [do_GET] on the extension of the path: the
    value of the [Content-type] header that the taken branch sends. *)
Definition content_type (path : string) : string :=
  if endswith path ".html" then "text/html"
  else if endswith path ".css" then "text/css"
  else if endswith path ".js" then "text/javascript"
  else if endswith path ".json" then "application/json"
  else if endswith_any path [".jpg"; ".jpeg"] then "image/jpeg"
  else if endswith path ".png" then "image/png"
  else "application/octet-stream".

(** [if path == '/': path = '/index.html'] *)
Definition static_path (path : string) : string :=
  if String.eqb path "/" then "/index.html" else path.

Section DoGet.

(** [urllib.parse.urlparse]: library code, a parameter of the handler. *)
Variable urlparse : string -> result ParseResult.

(** [do_GET(self)], with [self.path] as its argument. *)
Definition do_GET (self_path : string) : H unit :=
  parsed_url ← call (urlparse self_path);
  let path := Py.path parsed_url in
  print ("Request received: " +:+ path);;
  if startswith path "/api/" then
    handle_api path
  else
    let path := static_path path in
    try_except
      (file ← open ("." +:+ path);
       send_response 200;;
       send_header "Content-type" (content_type path);;
       end_headers;;
       data ← file_read file;
       wfile_write data)
      FileNotFoundError
      (try_except
         (file ← open "./index.html";
          send_response 200;;
          send_header "Content-type" "text/html";;
          end_headers;;
          data ← file_read file;
          wfile_write data)
         FileNotFoundError
         (send_response 404;;
          send_header "Content-type" "text/html";;
          end_headers;;
          wfile_write (b "404 Not Found"))).

End DoGet.

End SolanaHandler.

(** ** Notions of the specification *)

Module Spec.
Import Py Effects.

(** The extension table of the specification (4.1.1): suffix and content
    type. *)
Definition extension_table : list (string * string) :=
  [ (".html", "text/html");
    (".css", "text/css");
    (".js", "text/javascript");
    (".json", "application/json");
    (".jpg", "image/jpeg");
    (".jpeg", "image/jpeg");
    (".png", "image/png") ].

(** The segments of a file name between its slashes. *)
Fixpoint split_on (c : ascii) (s : string) : list string :=
  match s with
  | EmptyString => [EmptyString]
  | String a r =>
      if Ascii.eqb a c then EmptyString :: split_on c r
      else match split_on c r with
           | h :: t => String a h :: t
           | [] => [String a EmptyString]
           end
  end.

(** Following the segments of a relative file name from the served root:
    the depth below the root after the last segment, or [None] as soon as
    a [..] segment steps above the root. *)
Fixpoint walk (depth : nat) (segments : list string) : option nat :=
  match segments with
  | [] => Some depth
  | seg :: rest =>
      if String.eqb seg "" || String.eqb seg "." then walk depth rest
      else if String.eqb seg ".." then
        match depth with
        | O => None
        | S d => walk d rest
        end
      else walk (S depth) rest
  end.

(** The file name leaves the served root. *)
Definition escapes_root (name : string) : bool :=
  match walk 0 (split_on "/" name) with
  | None => true
  | Some _ => false
  end.

(** The form of a timestamp: in a pattern, [d] stands for one decimal
    digit and every other character for itself. *)
Definition is_digit (c : ascii) : bool :=
  (48 <=? nat_of_ascii c)%nat && (nat_of_ascii c <=? 57)%nat.

Fixpoint matches (pattern s : string) : bool :=
  match pattern, s with
  | EmptyString, EmptyString => true
  | String p pattern', String c s' =>
      (if Ascii.eqb p "d" then is_digit c else Ascii.eqb p c) &&
      matches pattern' s'
  | _, _ => false
  end.

Definition iso_pattern : string := "dddd-dd-ddTdd:dd:dd.000Z".

(** The [lastExecution] of each record of an agents listing. *)
Definition last_executions (j : json) : list (option json) :=
  match j with
  | JList agents =>
      List.map (fun agent => get "metrics" agent ≫= get "lastExecution") agents
  | _ => []
  end.

(** A serialised value with its timestamp fields blanked. *)
Fixpoint redact (j : json) : json :=
  match j with
  | JList l => JList (List.map redact l)
  | JDict items =>
      JDict (List.map
               (fun kv =>
                  (fst kv,
                   if String.eqb (fst kv) "timestamp" ||
                      String.eqb (fst kv) "lastExecution"
                   then JNone else redact (snd kv)))
               items)
  | _ => j
  end.

(** Two events are the same except for timestamp fields: they are equal,
    or they write the serialisations of two values that are equal once
    their timestamp fields are blanked. *)
Inductive same_but_timestamps : event -> event -> Prop :=
| same_event (e : event) : same_but_timestamps e e
| same_json (j1 j2 : json) :
    redact j1 = redact j2 ->
    same_but_timestamps (WfileWrite (encode (dumps j1)))
                        (WfileWrite (encode (dumps j2))).

End Spec.

(** ** Example worlds *)

Module Examples.
Import Py Effects.

(** A served root with an index page, a script and a file that the server
    process may not read; one level above the root there is a file
    [etc/passwd]. *)
Definition site (name : string) : result file :=
  if String.eqb name "./index.html" then Ok (File (Ok (b "<html>home</html>")))
  else if String.eqb name "./app.js" then Ok (File (Ok (b "console.log(1)")))
  else if String.eqb name "./secret.key" then Raise PermissionError
  else if String.eqb name "./../etc/passwd" then Ok (File (Ok (b "root:x:0:0")))
  else Raise FileNotFoundError.

(** A served root without any file. *)
Definition empty_site (name : string) : result file := Raise FileNotFoundError.

(** A clock that advances by one second at each reading. *)
Definition ticking (k : nat) : struct_time :=
  StructTime 2026 11 3 12 30 (Z.of_nat k).

Definition rpc_env : gmap string string :=
  <["INSTANT_NODES_RPC_URL" := "https://rpc.example"]> ∅.

Definition demo : world := World site rpc_env ticking.
Definition bare : world := World empty_site ∅ ticking.

End Examples.

(** ** Observations on a run *)

Module Observations.
Import Py Effects.

(** Opening the file, or reading it once open, raises [FileNotFoundError]. *)
Definition not_found (w : world) (name : string) : bool :=
  match fs w name with
  | Raise FileNotFoundError => true
  | Ok (File (Raise FileNotFoundError)) => true
  | _ => false
  end.

(** The exception that opening the file, or reading it once open, raises. *)
Definition lookup_error (w : world) (name : string) : option exn :=
  match fs w name with
  | Raise e => Some e
  | Ok (File (Raise e)) => Some e
  | Ok (File (Ok _)) => None
  end.

(** The paths that the dispatcher compares with. *)
Definition api_routes : list string :=
  ["/api/health"; "/api/solana/status"; "/api/agents"].

Definition is_route (path : string) : bool :=
  existsb (String.eqb path) api_routes.

(** The values that the handler ever gives to a [Content-type] header. *)
Definition content_types : list string :=
  [ "text/html"; "text/css"; "text/javascript"; "application/json";
    "image/jpeg"; "image/png"; "application/octet-stream" ].

(** The statuses and headers that the handler ever sends. *)
Definition known_event (e : event) : Prop :=
  match e with
  | SendResponse code => code = 200 \/ code = 404
  | SendHeader keyword value => keyword = "Content-type" /\ In value content_types
  | _ => True
  end.

(** A complete response of the static branch, and one of the API branch. *)
Definition static_response (code : Z) (ctype : string) (body : bytes) : list event :=
  [ SendResponse code; SendHeader "Content-type" ctype; EndHeaders; WfileWrite body ].

Definition api_response (code : Z) (body : bytes) : list event :=
  [ SendHeader "Content-type" "application/json"; SendResponse code; EndHeaders;
    WfileWrite body ].

End Observations.

(** ** Further example worlds *)

Module Scenarios.
Import Py Effects.

(** A served root in which [./report.css] opens but has vanished by the time
    it is read, and [./index.html] is present. *)
Definition vanishing (name : string) : result file :=
  if String.eqb name "./report.css" then Ok (File (Raise FileNotFoundError))
  else if String.eqb name "./index.html" then Ok (File (Ok (b "<html>home</html>")))
  else Raise FileNotFoundError.

Definition flaky : world := World vanishing ∅ Examples.ticking.

(** A served root with a directory [api] that holds a file [health]. *)
Definition with_api_directory (name : string) : result file :=
  if String.eqb name "././api/health" then Ok (File (Ok (b "file, not route")))
  else Raise FileNotFoundError.

Definition shadowed : world := World with_api_directory ∅ Examples.ticking.

(** An environment with an API key and no custom RPC URL. *)
Definition key_env : gmap string string :=
  <["SOLANA_RPC_API_KEY" := "secret-key"]> ∅.

End Scenarios.

(** ** Start-up: the port *)

Module Startup.
Import Py Spec.

(** Whitespace that [int] skips around a numeral, among the characters below
    U+0100. *)
Definition is_space (c : ascii) : bool :=
  let n := nat_of_ascii c in
  ((9 <=? n)%nat && (n <=? 13)%nat) || (n =? 32)%nat || (n =? 133)%nat ||
  (n =? 160)%nat.

Fixpoint lstrip (s : string) : string :=
  match s with
  | String c r => if is_space c then lstrip r else s
  | EmptyString => s
  end.

Fixpoint all_space (s : string) : bool :=
  match s with
  | String c r => is_space c && all_space r
  | EmptyString => true
  end.

(** The digits of the body of a numeral: decimal digits, with single
    underscores between digits, and whitespace after the last digit.
    [after_digit] tells that the previous character was a digit. *)
Fixpoint numeral (after_digit : bool) (s : string) : option string :=
  match s with
  | EmptyString => if after_digit then Some EmptyString else None
  | String c r =>
      if is_digit c then String c <$> numeral true r
      else if Ascii.eqb c "_" then
        (if after_digit then numeral false r else None)
      else if is_space c then
        (if after_digit && all_space r then Some EmptyString else None)
      else None
  end.

(** [int(s)] for a [str] whose characters are all below U+0100 and that has
    at most 4300 digits (recent versions refuse longer numerals): whitespace,
    an optional sign, the numeral; [ValueError] on anything else.  A
    character of the string is a code point, not a byte of its encoding.
    Decimal digits and whitespace from U+0100 on, which [int] accepts too,
    are not values of this type: statements about [int_of_str] and [PORT] are
    statements about values of [PORT] below U+0100 only. *)
Definition int_of_str (s : string) : result Z :=
  let s := lstrip s in
  let '(negative, body) :=
    match s with
    | String c r =>
        if Ascii.eqb c "-" then (true, r)
        else if Ascii.eqb c "+" then (false, r)
        else (false, s)
    | EmptyString => (false, s)
    end in
  match numeral false body ≫= NilEmpty.uint_of_string with
  | Some d => Ok (if negative then - Z.of_uint d else Z.of_uint d)
  | None => Raise ValueError
  end.

(** [PORT = int(os.environ.get('PORT', 5000))], evaluated when the module is
    loaded: the default is the int 5000, which [int] returns as it is. *)
Definition PORT (environ : gmap string string) : result Z :=
  match environ !! "PORT" with
  | Some value => int_of_str value
  | None => Ok 5000
  end.

(** Some character of the string satisfies the test. *)
Fixpoint any_char (test : ascii -> bool) (s : string) : bool :=
  match s with
  | String c r => test c || any_char test r
  | EmptyString => false
  end.

(** The characters that can occur in a string that [int] accepts. *)
Definition numeral_char (c : ascii) : bool :=
  is_digit c || is_space c || Ascii.eqb c "_" || Ascii.eqb c "+" || Ascii.eqb c "-".

End Startup.

(** ** Below the calls: what http.server puts on the wire *)

Module Wire.
Import Py Effects.

Section Library.

(** [self.version_string()], the value of the [Server] header. *)
Variable server : string.

(** [self.date_time_string()] at the k-th call of [send_response] of the
    request: the library reads [time.time()] there. *)
Variable dates : nat -> string.

(** The headers of a run as [http.server] buffers them: [send_response(code)]
    is [send_response_only(code)] followed by [send_header('Server', ...)]
    and [send_header('Date', ...)]; the other events are left as they are.
    [k] counts the calls of [send_response] so far. *)
Fixpoint wire (k : nat) (events : list event) : list event :=
  match events with
  | [] => []
  | SendResponse code :: rest =>
      SendResponse code :: SendHeader "Server" server ::
      SendHeader "Date" (dates k) :: wire (S k) rest
  | e :: rest => e :: wire k rest
  end.

End Library.


(** The statuses and headers that ever reach the wire. *)
Definition known_wire_event (e : event) : Prop :=
  match e with
  | SendResponse code => code = 200 \/ code = 404
  | SendHeader keyword value =>
      (keyword = "Content-type" /\ In value Observations.content_types) \/
      keyword = "Server" \/ keyword = "Date"
  | _ => True
  end.

End Wire.

(** ** Properties *)

Import Py Effects SolanaHandler Spec.

(** *** The embedding on concrete inputs *)

Example urlparse_cuts :
  urlparse_origin_form "/a/b;c/index.html;p=1?x=1#frag" =
    Ok {| scheme := ""; netloc := ""; path := "/a/b;c/index.html";
          params := "p=1"; query := "x=1"; fragment := "frag" |}.
Proof. reflexivity. Qed.

Example health_body :
  dumps health_response =
    "{" +:+ dquote +:+ "status" +:+ dquote +:+ ": " +:+ dquote +:+ "ok" +:+ dquote +:+
    ", " +:+ dquote +:+ "message" +:+ dquote +:+ ": " +:+
    dquote +:+ "Solana Trading Platform server is running" +:+ dquote +:+ "}".
Proof. reflexivity. Qed.

Example numbers_rendering :
  dumps (JList [JInt 157; JFloat (FloatLit 92 2); JFloat (FloatLit 2345 2);
                JInt (-3); JBool true; JNone]) =
    "[157, 0.92, 23.45, -3, true, null]".
Proof. reflexivity. Qed.

Example escapes_rendering :
  dumps (JStr ("a" +:+ dquote +:+ "b" +:+ String "010" (String "233" ""))) =
    dquote +:+ "a" +:+ backslash +:+ dquote +:+ "b" +:+ backslash +:+ "n" +:+
    backslash +:+ "u00e9" +:+ dquote.
Proof. reflexivity. Qed.

Example timestamp_leap_day :
  timestamp (StructTime 2024 2 29 23 59 59) = "2024-02-29T23:59:59.000Z".
Proof. reflexivity. Qed.

Example health_run :
  do_GET urlparse_origin_form "/api/health" Examples.bare 0%nat =
    Run (Ok tt)
      [ Print "Request received: /api/health";
        SendHeader "Content-type" "application/json";
        SendResponse 200;
        EndHeaders;
        WfileWrite (encode (dumps health_response)) ] 0%nat.
Proof. reflexivity. Qed.

Example directory_request :
  do_GET urlparse_origin_form "/" Examples.bare 0%nat =
    Run (Ok tt)
      [ Print "Request received: /";
        Open "./index.html";
        Open "./index.html";
        SendResponse 404;
        SendHeader "Content-type" "text/html";
        EndHeaders;
        WfileWrite (b "404 Not Found") ] 0%nat.
Proof. reflexivity. Qed.

(** *** Strings *)

Section StringFacts.

#[local] Arguments String.append !_ _ / : simpl nomatch.

Lemma prefix_app (p r : string) : String.prefix p (p +:+ r) = true.
Proof.
  induction p as [|c p IH]; simpl.
  - now destruct r.
  - destruct (ascii_dec c c) as [_|ne]; [exact IH | now destruct ne].
Qed.

Lemma prefix_inv (p s : string) :
  String.prefix p s = true -> exists r, s = p +:+ r.
Proof.
  revert s; induction p as [|c p IH]; intros s Hp.
  - now exists s.
  - destruct s as [|d s]; simpl in Hp; [discriminate|].
    destruct (ascii_dec c d) as [->|]; [|discriminate].
    destruct (IH s Hp) as [r ->]. now exists r.
Qed.

(** Cutting at the first ['#'] and then at the first ['?'] forgets a
    query string appended to the target. *)
Lemma split1_query (url q : string) :
  (split1 "?" (split1 "#" (url +:+ "?" +:+ q)).1).1 =
  (split1 "?" (split1 "#" url).1).1.
Proof.
  change ("?" +:+ q) with (String "?" q).
  induction url as [|c url IH]; cbn.
  - destruct (split1 "#" q); reflexivity.
  - destruct (Ascii.eqb c "#") eqn:Hhash; [reflexivity|].
    destruct (split1 "#" (url +:+ String "?" q)) as [h1 t1].
    destruct (split1 "#" url) as [h2 t2]. cbn in *.
    destruct (Ascii.eqb c "?"); [reflexivity|].
    destruct (split1 "?" h1), (split1 "?" h2). cbn in *. now f_equal.
Qed.

Lemma length_app (x y : string) :
  String.length (x +:+ y) = (String.length x + String.length y)%nat.
Proof. induction x as [|c x IH]; simpl; [reflexivity | now rewrite IH]. Qed.

Lemma substring_all (a : string) : substring 0 (String.length a) a = a.
Proof. induction a as [|c a IH]; simpl; [reflexivity | now rewrite IH]. Qed.

Lemma substring_app_r (x a : string) :
  substring (String.length x) (String.length a) (x +:+ a) = a.
Proof. induction x as [|c x IH]; simpl; [apply substring_all | exact IH]. Qed.

Lemma substring_split (s : string) (i : nat) :
  (i <= String.length s)%nat ->
  substring 0 i s +:+ substring i (String.length s - i) s = s.
Proof.
  revert i; induction s as [|c s IH]; intros [|i] Hi; simpl in *;
    try reflexivity; try lia.
  - now rewrite substring_all.
  - f_equal. apply IH. lia.
Qed.

(** A string ends with a suffix exactly when it is some text followed by
    the suffix. *)
Lemma endswith_app (x a : string) : endswith (x +:+ a) a = true.
Proof.
  unfold endswith. rewrite length_app.
  replace (String.length a <=? String.length x + String.length a)%nat
    with true by (symmetry; apply Nat.leb_le; lia).
  replace (String.length x + String.length a - String.length a)%nat
    with (String.length x) by lia.
  rewrite substring_app_r. apply String.eqb_refl.
Qed.

Lemma endswith_inv (s a : string) :
  endswith s a = true -> exists x, s = x +:+ a.
Proof.
  unfold endswith.
  destruct (String.length a <=? String.length s)%nat eqn:Hle; [|discriminate].
  apply Nat.leb_le in Hle. intros Heq. apply String.eqb_eq in Heq.
  exists (substring 0 (String.length s - String.length a) s).
  pose proof (substring_split s (String.length s - String.length a)) as Hs.
  replace (String.length s - (String.length s - String.length a))%nat
    with (String.length a) in Hs by lia.
  rewrite Heq in Hs. symmetry. apply Hs. lia.
Qed.

Lemma app_overlap (p1 a p2 c : string) :
  p1 +:+ a = p2 +:+ c -> (String.length p2 <= String.length p1)%nat ->
  exists x, c = x +:+ a.
Proof.
  revert p1; induction p2 as [|d p2 IH]; intros p1 Heq Hlen; simpl in *.
  - now exists p1.
  - destruct p1 as [|e p1]; simpl in *; [lia|].
    injection Heq as _ Heq. apply (IH p1 Heq). lia.
Qed.

(** Two suffixes of one string: the shorter is a suffix of the longer. *)
Lemma suffixes_comparable (s a c : string) :
  endswith s a = true -> endswith s c = true ->
  endswith a c = true \/ endswith c a = true.
Proof.
  intros Ha Hc.
  destruct (endswith_inv s a Ha) as [p1 E1].
  destruct (endswith_inv s c Hc) as [p2 E2].
  destruct (Nat.le_gt_cases (String.length p2) (String.length p1)) as [Hle|Hgt].
  - right. destruct (app_overlap p1 a p2 c) as [x ->]; [congruence|exact Hle|].
    apply endswith_app.
  - left. destruct (app_overlap p2 c p1 a) as [x ->]; [congruence|lia|].
    apply endswith_app.
Qed.

(** Of two suffixes neither of which ends with the other, a string ends
    with at most one. *)
Lemma endswith_excludes (s a c : string) :
  endswith a c = false -> endswith c a = false ->
  endswith s a = true -> endswith s c = false.
Proof.
  intros Hac Hca Ha. destruct (endswith s c) eqn:Hc; [|reflexivity].
  destruct (suffixes_comparable s a c Ha Hc); congruence.
Qed.

End StringFacts.

(** *** Running the handler *)

(** Unfolds the sequencing of handler code down to the runs of its parts. *)
Ltac run_handler :=
  cbv beta iota zeta delta
    [do_GET mbind mret H_bind H_ret call emit try_except print open
     file_read send_response send_header end_headers wfile_write in_environ gmtime
     read outcome emitted reads exn_eqb response opened].

(** Case analysis on what [open] and [read] do for every file that the run
    in the goal opens in world [w]. *)
Ltac case_fs w :=
  repeat (match goal with
          | |- context [fs w ?name] => destruct (fs w name) as [[[?|[]]]|[]]
          end; run_handler).

Section Routing.

Variable urlparse : string -> result ParseResult.

(** A request whose path starts with [/api/] is the log line followed by
    the run of the dispatcher. *)
Lemma do_GET_api (w : world) (n : nat) (raw : string) (pr : ParseResult) :
  urlparse raw = Ok pr ->
  startswith (path pr) "/api/" = true ->
  do_GET urlparse raw w n =
    let r := handle_api (path pr) w n in
    Run (outcome r) (Print ("Request received: " +:+ path pr) :: emitted r) (reads r).
Proof.
  intros Hparse Hapi. unfold do_GET. run_handler. rewrite Hparse.
  cbv beta iota zeta. rewrite Hapi. cbv beta iota zeta.
  destruct (handle_api (path pr) w n) as [o ev c]. reflexivity.
Qed.

(** The handler reads nothing of [self.path] but the [path] field of its
    parse. *)
Lemma do_GET_path_only (w : world) (n : nat) (raw1 raw2 : string)
    (p1 p2 : ParseResult) :
  urlparse raw1 = Ok p1 -> urlparse raw2 = Ok p2 -> path p1 = path p2 ->
  do_GET urlparse raw1 w n = do_GET urlparse raw2 w n.
Proof.
  intros H1 H2 Hp. unfold do_GET. run_handler. rewrite H1, H2.
  cbv beta iota zeta. now rewrite Hp.
Qed.

End Routing.

(** *** Routing (claim C1) *)

Lemma handle_api_opens_nothing (path : string) (w : world) (n : nat) :
  opened (handle_api path w n) = [].
Proof.
  unfold handle_api.
  destruct (String.eqb path "/api/health");
    [|destruct (String.eqb path "/api/solana/status");
      [|destruct (String.eqb path "/api/agents")]]; reflexivity.
Qed.

Lemma urlparse_origin_form_query (raw q : string) :
  exists p1 p2,
    urlparse_origin_form (raw +:+ "?" +:+ q) = Ok p1 /\
    urlparse_origin_form raw = Ok p2 /\ path p1 = path p2.
Proof.
  unfold urlparse_origin_form.
  pose proof (split1_query raw q) as Hcut.
  destruct (split1 "#" (raw +:+ "?" +:+ q)) as [u1 f1].
  destruct (split1 "#" raw) as [u2 f2]. simpl in Hcut.
  destruct (split1 "?" u1) as [v1 q1], (split1 "?" u2) as [v2 q2].
  simpl in Hcut. subst v2.
  destruct (if contains ";" v1 then _splitparams v1 else (v1, "")) as [x ps].
  eexists _, _. repeat split.
Qed.

(** C1.  Routing of a GET request.  (1) On a request target in origin form
    the query string is discarded before routing: appending ["?" q] to the
    target does not change the run of the handler.  (2) When the parsed path
    starts with [/api/], the run is the log line followed by the run of the
    API dispatcher, and no file is opened.  (3) When the parsed path is
    exactly [/], it is rewritten to [/index.html]: the response, the result
    and the files opened are those of a request for [/index.html]. *)
Theorem do_GET_routing :
  (forall (w : world) (n : nat) (raw q : string),
      origin_form raw = true ->
      do_GET urlparse_origin_form (raw +:+ "?" +:+ q) w n =
      do_GET urlparse_origin_form raw w n) /\
  (forall (urlparse : string -> result ParseResult) (w : world) (n : nat)
          (raw : string) (pr : ParseResult),
      urlparse raw = Ok pr ->
      startswith (path pr) "/api/" = true ->
      do_GET urlparse raw w n =
        Run (outcome (handle_api (path pr) w n))
            (Print ("Request received: " +:+ path pr) ::
             emitted (handle_api (path pr) w n))
            (reads (handle_api (path pr) w n)) /\
      opened (do_GET urlparse raw w n) = []) /\
  (forall (urlparse : string -> result ParseResult) (w : world) (n : nat)
          (raw1 raw2 : string) (p1 p2 : ParseResult),
      urlparse raw1 = Ok p1 -> urlparse raw2 = Ok p2 ->
      path p1 = "/" -> path p2 = "/index.html" ->
      response (do_GET urlparse raw1 w n) = response (do_GET urlparse raw2 w n) /\
      outcome (do_GET urlparse raw1 w n) = outcome (do_GET urlparse raw2 w n) /\
      opened (do_GET urlparse raw1 w n) = opened (do_GET urlparse raw2 w n)).
Proof.
  split; [|split].
  - intros w n raw q _.
    destruct (urlparse_origin_form_query raw q) as (p1 & p2 & H1 & H2 & Hp).
    exact (do_GET_path_only urlparse_origin_form w n _ _ p1 p2 H1 H2 Hp).
  - intros urlparse w n raw pr Hparse Hapi.
    rewrite (do_GET_api urlparse w n raw pr Hparse Hapi). split; [reflexivity|].
    apply handle_api_opens_nothing.
  - intros urlparse w n raw1 raw2 p1 p2 H1 H2 Hp1 Hp2.
    unfold do_GET. run_handler. rewrite H1, H2. cbv beta iota zeta.
    rewrite Hp1, Hp2.
    change (startswith "/" "/api/") with false.
    change (startswith "/index.html" "/api/") with false.
    cbv beta iota zeta.
    change (static_path "/") with "/index.html".
    change (static_path "/index.html") with "/index.html".
    change ("." +:+ "/index.html") with "./index.html".
    case_fs w; repeat split; reflexivity.
Qed.

Lemma do_GET_routing_witness :
  do_GET urlparse_origin_form ("/app.js" +:+ "?" +:+ "v=2") Examples.demo 0%nat =
    do_GET urlparse_origin_form "/app.js" Examples.demo 0%nat /\
  opened (do_GET urlparse_origin_form "/api/health" Examples.demo 0%nat) = [] /\
  response (do_GET urlparse_origin_form "/" Examples.demo 0%nat) =
    response (do_GET urlparse_origin_form "/index.html" Examples.demo 0%nat).
Proof.
  split; [|split].
  - apply (proj1 do_GET_routing Examples.demo 0%nat "/app.js" "v=2"). reflexivity.
  - eapply (proj1 (proj2 do_GET_routing)); reflexivity.
  - eapply (proj2 (proj2 do_GET_routing)); reflexivity.
Defined.

(** *** Static assets (claim C2) *)

Ltac not_suffix H suf :=
  match type of H with
  | endswith ?p ?a = true => rewrite (endswith_excludes p a suf eq_refl eq_refl H)
  end.

(** The [if]/[elif] chain is a lookup in the extension table: every row of
    the table holds whatever its position, and a path that matches no row
    gets the default. *)
Lemma content_type_table (p : string) :
  Forall (fun row => endswith p row.1 = true -> content_type p = row.2)
    extension_table /\
  (Forall (fun row => endswith p row.1 = false) extension_table ->
   content_type p = "application/octet-stream").
Proof.
  split.
  - unfold extension_table, content_type, endswith_any, existsb.
    repeat apply List.Forall_cons; try apply List.Forall_nil;
      simpl fst; simpl snd; intros H.
    + now rewrite H.
    + not_suffix H ".html". now rewrite H.
    + not_suffix H ".html". not_suffix H ".css". now rewrite H.
    + not_suffix H ".html". not_suffix H ".css". not_suffix H ".js". now rewrite H.
    + not_suffix H ".html". not_suffix H ".css". not_suffix H ".js".
      not_suffix H ".json". now rewrite H.
    + not_suffix H ".html". not_suffix H ".css". not_suffix H ".js".
      not_suffix H ".json". rewrite H. now rewrite orb_true_r.
    + not_suffix H ".html". not_suffix H ".css". not_suffix H ".js".
      not_suffix H ".json". not_suffix H ".jpg". not_suffix H ".jpeg".
      now rewrite H.
  - unfold extension_table, content_type, endswith_any, existsb. intros Hnone.
    repeat match goal with
           | Hf : Forall _ (_ :: _) |- _ => inversion_clear Hf
           end.
    simpl fst in *.
    repeat match goal with
           | Hf : endswith p _ = false |- _ => rewrite Hf; clear Hf
           end.
    reflexivity.
Qed.

(** C2.  The success path of a static asset.  When the parsed path does not
    start with [/api/] and the file named by the path (after the rewrite of
    [/]) opens and reads as [data], the handler answers with status 200, one
    [Content-type] header and a body that is exactly [data].  The header value
    follows the extension table, suffixes compared case-sensitively: each row
    of the table decides the type of every path with that suffix, and every
    other path is served as [application/octet-stream]. *)
Theorem static_asset_served (urlparse : string -> result ParseResult)
    (w : world) (n : nat) (raw : string) (pr : ParseResult) (data : bytes) :
  urlparse raw = Ok pr ->
  startswith (path pr) "/api/" = false ->
  fs w ("." +:+ static_path (path pr)) = Ok (File (Ok data)) ->
  do_GET urlparse raw w n =
    Run (Ok tt)
      [ Print ("Request received: " +:+ path pr);
        Open ("." +:+ static_path (path pr));
        SendResponse 200;
        SendHeader "Content-type" (content_type (static_path (path pr)));
        EndHeaders;
        WfileWrite data ] n /\
  Forall (fun row => endswith (static_path (path pr)) row.1 = true ->
                     content_type (static_path (path pr)) = row.2)
    extension_table /\
  (Forall (fun row => endswith (static_path (path pr)) row.1 = false)
     extension_table ->
   content_type (static_path (path pr)) = "application/octet-stream").
Proof.
  intros Hparse Hapi Hfile. split; [|apply content_type_table].
  unfold do_GET. run_handler. rewrite Hparse. cbv beta iota zeta.
  rewrite Hapi. cbv beta iota zeta. rewrite Hfile. reflexivity.
Qed.

Lemma static_asset_served_witness :
  do_GET urlparse_origin_form "/app.js?v=2" Examples.demo 0%nat =
    Run (Ok tt)
      [ Print "Request received: /app.js";
        Open "./app.js";
        SendResponse 200;
        SendHeader "Content-type" "text/javascript";
        EndHeaders;
        WfileWrite (b "console.log(1)") ] 0%nat /\
  content_type "/logo.PNG" = "application/octet-stream".
Proof.
  split; [|reflexivity].
  exact (proj1 (static_asset_served urlparse_origin_form Examples.demo 0%nat
                  "/app.js?v=2" _ (b "console.log(1)") eq_refl eq_refl eq_refl)).
Defined.

(** *** The fallback chain (claim C3) *)

(** C3.  The fallback chain of a static request.  When the parsed path does
    not start with [/api/] and opening its file raises [FileNotFoundError],
    the handler next opens [./index.html].  If that file opens and reads as
    [data], the response is status 200, [Content-type: text/html] and body
    [data]; if it is not found either, the response is status 404,
    [Content-type: text/html] and the body [404 Not Found].  [index] is the
    content of [./index.html], [None] when the file is absent. *)
Theorem spa_fallback (urlparse : string -> result ParseResult)
    (w : world) (n : nat) (raw : string) (pr : ParseResult) (index : option bytes) :
  urlparse raw = Ok pr ->
  startswith (path pr) "/api/" = false ->
  fs w ("." +:+ static_path (path pr)) = Raise FileNotFoundError ->
  fs w "./index.html" =
    match index with
    | Some data => Ok (File (Ok data))
    | None => Raise FileNotFoundError
    end ->
  do_GET urlparse raw w n =
    Run (Ok tt)
      (Print ("Request received: " +:+ path pr) ::
       Open ("." +:+ static_path (path pr)) ::
       Open "./index.html" ::
       match index with
       | Some data =>
           [ SendResponse 200; SendHeader "Content-type" "text/html";
             EndHeaders; WfileWrite data ]
       | None =>
           [ SendResponse 404; SendHeader "Content-type" "text/html";
             EndHeaders; WfileWrite (b "404 Not Found") ]
       end) n.
Proof.
  intros Hparse Hapi Hfile Hindex.
  unfold do_GET. run_handler. rewrite Hparse. cbv beta iota zeta.
  rewrite Hapi. cbv beta iota zeta. rewrite Hfile. cbv beta iota zeta.
  rewrite Hindex. destruct index; reflexivity.
Qed.

Lemma spa_fallback_witness :
  response (do_GET urlparse_origin_form "/dashboard/agents" Examples.demo 0%nat) =
    [ SendResponse 200; SendHeader "Content-type" "text/html"; EndHeaders;
      WfileWrite (b "<html>home</html>") ] /\
  response (do_GET urlparse_origin_form "/dashboard/agents" Examples.bare 0%nat) =
    [ SendResponse 404; SendHeader "Content-type" "text/html"; EndHeaders;
      WfileWrite (b "404 Not Found") ].
Proof.
  split.
  - rewrite (spa_fallback urlparse_origin_form Examples.demo 0%nat
               "/dashboard/agents" _ (Some (b "<html>home</html>"))
               eq_refl eq_refl eq_refl eq_refl).
    reflexivity.
  - rewrite (spa_fallback urlparse_origin_form Examples.bare 0%nat
               "/dashboard/agents" _ None eq_refl eq_refl eq_refl eq_refl).
    reflexivity.
Defined.

(** *** Filesystem errors other than "not found" (claim C8) *)




(** *** Literal path resolution (claim C10) *)

(** C10.  The name of the file that a static request opens.  (1) For every
    parsed path that does not start with [/api/], the first file that the
    handler opens is named by the concatenation of ["."] and the path (after
    the rewrite of [/]), character for character: nothing is normalised and
    no segment is rejected.  (2) Nothing keeps that name inside the served
    root: the request [/../etc/passwd] has a [..] segment, opens
    [./../etc/passwd], which lies above the root, and is answered with the
    bytes of that file. *)
Theorem literal_path_resolution :
  (forall (urlparse : string -> result ParseResult) (w : world) (n : nat)
          (raw : string) (pr : ParseResult),
      urlparse raw = Ok pr ->
      startswith (path pr) "/api/" = false ->
      exists rest,
        emitted (do_GET urlparse raw w n) =
          Print ("Request received: " +:+ path pr) ::
          Open ("." +:+ static_path (path pr)) :: rest) /\
  (In ".." (split_on "/" "/../etc/passwd") /\
   escapes_root ("." +:+ "/../etc/passwd") = true /\
   do_GET urlparse_origin_form "/../etc/passwd" Examples.demo 0%nat =
     Run (Ok tt)
       [ Print "Request received: /../etc/passwd";
         Open "./../etc/passwd";
         SendResponse 200;
         SendHeader "Content-type" "application/octet-stream";
         EndHeaders;
         WfileWrite (b "root:x:0:0") ] 0%nat).
Proof.
  split.
  - intros urlparse w n raw pr Hparse Hapi.
    unfold do_GET. run_handler. rewrite Hparse. cbv beta iota zeta.
    rewrite Hapi. cbv beta iota zeta.
    case_fs w; eexists; reflexivity.
  - repeat split. simpl. tauto.
Qed.

Lemma literal_path_resolution_witness :
  exists rest,
    emitted (do_GET urlparse_origin_form "/a/../../b.txt" Examples.bare 0%nat) =
      Print "Request received: /a/../../b.txt" :: Open "./a/../../b.txt" :: rest.
Proof.
  exact (proj1 literal_path_resolution urlparse_origin_form Examples.bare 0%nat
           "/a/../../b.txt" _ eq_refl eq_refl).
Defined.

(** *** The API dispatcher (claims C4, C5, C6) *)

(** The body of the answer to an unknown API route. *)
Lemma not_found_body :
  dumps not_found_response =
    "{" +:+ dquote +:+ "error" +:+ dquote +:+ ": " +:+
    dquote +:+ "API endpoint not found" +:+ dquote +:+ "}".
Proof. reflexivity. Qed.

(** C5.  The contract of the API dispatcher.  (1) On every path the
    dispatcher first sends the header [Content-type: application/json], then
    the status, then ends the headers and writes one body; it raises
    nothing.  (2) A request whose parsed path starts with [/api/] and is not
    exactly [/api/health], [/api/solana/status] or [/api/agents] (a trailing
    slash makes it another path) gets status 404 and the body
    [{"error": "API endpoint not found"}]. *)
Theorem api_dispatcher_contract :
  (forall (path : string) (w : world) (n : nat),
      outcome (handle_api path w n) = Ok tt /\
      exists code body,
        emitted (handle_api path w n) =
          [ SendHeader "Content-type" "application/json";
            SendResponse code; EndHeaders; WfileWrite body ]) /\
  (forall (urlparse : string -> result ParseResult) (w : world) (n : nat)
          (raw : string) (pr : ParseResult),
      urlparse raw = Ok pr ->
      startswith (path pr) "/api/" = true ->
      path pr <> "/api/health" ->
      path pr <> "/api/solana/status" ->
      path pr <> "/api/agents" ->
      do_GET urlparse raw w n =
        Run (Ok tt)
          [ Print ("Request received: " +:+ path pr);
            SendHeader "Content-type" "application/json";
            SendResponse 404;
            EndHeaders;
            WfileWrite
              (encode ("{" +:+ dquote +:+ "error" +:+ dquote +:+ ": " +:+
                       dquote +:+ "API endpoint not found" +:+ dquote +:+ "}")) ]
          n).
Proof.
  split.
  - intros path w n. unfold handle_api.
    destruct (String.eqb path "/api/health");
      [|destruct (String.eqb path "/api/solana/status");
        [|destruct (String.eqb path "/api/agents")]];
      (split; [reflexivity | eexists _, _; reflexivity]).
  - intros urlparse w n raw pr Hparse Hapi H1 H2 H3.
    rewrite (do_GET_api urlparse w n raw pr Hparse Hapi).
    apply String.eqb_neq in H1, H2, H3.
    unfold handle_api. rewrite H1, H2, H3. rewrite <- not_found_body.
    reflexivity.
Qed.

Lemma api_dispatcher_contract_witness :
  response (do_GET urlparse_origin_form "/api/health/" Examples.demo 0%nat) =
    [ SendHeader "Content-type" "application/json";
      SendResponse 404;
      EndHeaders;
      WfileWrite (encode (dumps not_found_response)) ] /\
  response (do_GET urlparse_origin_form "/api/does-not-exist" Examples.demo 0%nat) =
    [ SendHeader "Content-type" "application/json";
      SendResponse 404;
      EndHeaders;
      WfileWrite (encode (dumps not_found_response)) ].
Proof.
  split.
  - rewrite (proj2 api_dispatcher_contract urlparse_origin_form Examples.demo
               0%nat "/api/health/" _ eq_refl eq_refl
               ltac:(discriminate) ltac:(discriminate) ltac:(discriminate)).
    reflexivity.
  - rewrite (proj2 api_dispatcher_contract urlparse_origin_form Examples.demo
               0%nat "/api/does-not-exist" _ eq_refl eq_refl
               ltac:(discriminate) ltac:(discriminate) ltac:(discriminate)).
    reflexivity.
Defined.

(** The runs of the two timestamped routes. *)
Lemma handle_api_status (w : world) (n : nat) :
  handle_api "/api/solana/status" w n =
    Run (Ok tt)
      [ SendHeader "Content-type" "application/json";
        SendResponse 200;
        EndHeaders;
        WfileWrite
          (encode (dumps (status_response
             (bool_decide (is_Some (environ w !! "SOLANA_RPC_API_KEY")))
             (bool_decide (is_Some (environ w !! "INSTANT_NODES_RPC_URL")))
             (clock w n)))) ] (S n).
Proof. reflexivity. Qed.

Lemma handle_api_agents (w : world) (n : nat) :
  handle_api "/api/agents" w n =
    Run (Ok tt)
      [ SendHeader "Content-type" "application/json";
        SendResponse 200;
        EndHeaders;
        WfileWrite (encode (dumps (agents_response (clock w n) (clock w (S n))))) ]
      (S (S n)).
Proof. reflexivity. Qed.

(** [x or True] is [True] whatever [x] is. *)
Lemma py_or_true (x : bool) : py_or x true = true.
Proof. now destruct x. Qed.

(** C4.  The body of [GET /api/solana/status].  In every environment the
    response has status 200 and its body is the serialisation of a dict in
    which [status] is ["operational"], [network] is ["mainnet-beta"],
    [apiKey] is [true] whether or not [SOLANA_RPC_API_KEY] is set, and
    [customRpc] is [true] exactly when [INSTANT_NODES_RPC_URL] is set. *)
Theorem status_flags (urlparse : string -> result ParseResult)
    (w : world) (n : nat) (raw : string) (pr : ParseResult) :
  urlparse raw = Ok pr ->
  path pr = "/api/solana/status" ->
  let has_api_key := bool_decide (is_Some (environ w !! "SOLANA_RPC_API_KEY")) in
  let custom := bool_decide (is_Some (environ w !! "INSTANT_NODES_RPC_URL")) in
  let body := status_response has_api_key custom (clock w n) in
  do_GET urlparse raw w n =
    Run (Ok tt)
      [ Print "Request received: /api/solana/status";
        SendHeader "Content-type" "application/json";
        SendResponse 200;
        EndHeaders;
        WfileWrite (encode (dumps body)) ] (S n) /\
  get "status" body = Some (JStr "operational") /\
  get "network" body = Some (JStr "mainnet-beta") /\
  get "apiKey" body = Some (JBool true) /\
  get "customRpc" body = Some (JBool custom) /\
  (custom = true <-> is_Some (environ w !! "INSTANT_NODES_RPC_URL")).
Proof.
  intros Hparse Hpath has_api_key custom body.
  assert (Hapi : startswith (path pr) "/api/" = true) by now rewrite Hpath.
  rewrite (do_GET_api urlparse w n raw pr Hparse Hapi), Hpath, handle_api_status.
  split; [reflexivity|]. split; [reflexivity|]. split; [reflexivity|].
  split; [|split; [reflexivity|]].
  - subst body. unfold status_response. now rewrite py_or_true.
  - subst custom. split.
    + intros Hc. now apply bool_decide_eq_true in Hc.
    + intros Hset. now apply bool_decide_eq_true.
Qed.

Lemma status_flags_witness :
  response (do_GET urlparse_origin_form "/api/solana/status" Examples.demo 0%nat) =
    [ SendHeader "Content-type" "application/json";
      SendResponse 200;
      EndHeaders;
      WfileWrite (encode (dumps (status_response false true (Examples.ticking 0)))) ] /\
  Examples.rpc_env !! "SOLANA_RPC_API_KEY" = None.
Proof.
  split; [|reflexivity].
  rewrite (proj1 (status_flags urlparse_origin_form Examples.demo 0%nat
                    "/api/solana/status" _ eq_refl eq_refl)).
  reflexivity.
Defined.

(** C6.  The body of [GET /api/agents].  The response has status 200 and its
    body is the serialisation of a list of exactly two dicts; the keys of
    each are [id], [name], [type], [status], [active], [wallets] and
    [metrics], and the [successRate] under [metrics] of each is a number
    between 0 and 1. *)
Theorem agents_listing (urlparse : string -> result ParseResult)
    (w : world) (n : nat) (raw : string) (pr : ParseResult) :
  urlparse raw = Ok pr ->
  path pr = "/api/agents" ->
  let agents := agents_response (clock w n) (clock w (S n)) in
  do_GET urlparse raw w n =
    Run (Ok tt)
      [ Print "Request received: /api/agents";
        SendHeader "Content-type" "application/json";
        SendResponse 200;
        EndHeaders;
        WfileWrite (encode (dumps agents)) ] (S (S n)) /\
  exists agent1 agent2 : json,
    agents = JList [agent1; agent2] /\
    Forall
      (fun agent =>
         keys agent =
           ["id"; "name"; "type"; "status"; "active"; "wallets"; "metrics"] /\
         exists rate : float_lit,
           get "metrics" agent ≫= get "successRate" = Some (JFloat rate) /\
           (0 <= float_value rate <= 1)%Q)
      [agent1; agent2].
Proof.
  intros Hparse Hpath agents.
  assert (Hapi : startswith (path pr) "/api/" = true) by now rewrite Hpath.
  rewrite (do_GET_api urlparse w n raw pr Hparse Hapi), Hpath, handle_api_agents.
  split; [reflexivity|].
  eexists _, _. split; [reflexivity|].
  repeat apply List.Forall_cons; try apply List.Forall_nil;
    (split; [reflexivity|]); eexists; (split; [reflexivity|]);
    unfold float_value, Qle; simpl; lia.
Qed.

Lemma agents_listing_witness :
  response (do_GET urlparse_origin_form "/api/agents" Examples.bare 0%nat) =
    [ SendHeader "Content-type" "application/json";
      SendResponse 200;
      EndHeaders;
      WfileWrite
        (encode (dumps (agents_response (Examples.ticking 0) (Examples.ticking 1)))) ].
Proof.
  rewrite (proj1 (agents_listing urlparse_origin_form Examples.bare 0%nat
                    "/api/agents" _ eq_refl eq_refl)).
  reflexivity.
Defined.

(** *** Timestamps (claim C7) *)

Section TimestampForm.

#[local] Arguments String.append !_ _ / : simpl nomatch.

Lemma matches_app (p1 p2 s1 s2 : string) :
  matches p1 s1 = true -> matches p2 s2 = true ->
  matches (p1 +:+ p2) (s1 +:+ s2) = true.
Proof.
  revert s1; induction p1 as [|p p1 IH]; intros [|c s1] H1 H2; simpl in *;
    try discriminate; [exact H2|].
  apply andb_true_iff in H1 as [Hc H1]. rewrite Hc. simpl. now apply IH.
Qed.

(** A property checked on every integer of a range holds on the range. *)
Lemma range_check (f : Z -> bool) (lo : Z) (len : nat) :
  forallb f (List.map (fun k => lo + Z.of_nat k) (seq 0 len)) = true ->
  forall z : Z, lo <= z < lo + Z.of_nat len -> f z = true.
Proof.
  intros Hall z Hz. rewrite forallb_forall in Hall. apply Hall.
  apply in_map_iff. exists (Z.to_nat (z - lo)). split; [lia|].
  apply in_seq. lia.
Qed.

Lemma year_digits (y : Z) :
  1000 <= y <= 9999 -> matches "dddd" (repr_int y) = true.
Proof.
  intros Hy.
  assert (Hall : forallb (fun y => matches "dddd" (repr_int y))
                   (List.map (fun k => 1000 + Z.of_nat k) (seq 0 (Z.to_nat 9000)))
                 = true) by (vm_compute; reflexivity).
  apply (range_check _ _ _ Hall). lia.
Qed.

Lemma two_digits (z : Z) :
  0 <= z <= 99 -> matches "dd" (zfill2 z) = true.
Proof.
  intros Hz.
  assert (Hall : forallb (fun z => matches "dd" (zfill2 z))
                   (List.map (fun k => 0 + Z.of_nat k) (seq 0 (Z.to_nat 100)))
                 = true) by (vm_compute; reflexivity).
  apply (range_check _ _ _ Hall). lia.
Qed.

(** The format spelled out: the sub-second digits are the characters
    [000] of the format string, whatever the time. *)
Lemma timestamp_fields (t : struct_time) :
  timestamp t =
    repr_int (tm_year t) +:+ "-" +:+ zfill2 (tm_mon t) +:+ "-" +:+
    zfill2 (tm_mday t) +:+ "T" +:+ zfill2 (tm_hour t) +:+ ":" +:+
    zfill2 (tm_min t) +:+ ":" +:+ zfill2 (tm_sec t) +:+ ".000Z".
Proof. reflexivity. Qed.

Lemma timestamp_form (t : struct_time) :
  gmtime_range t -> matches iso_pattern (timestamp t) = true.
Proof.
  intros (Hy & Hm & Hd & HH & HM & HS). rewrite timestamp_fields.
  change iso_pattern
    with ("dddd" +:+ "-" +:+ "dd" +:+ "-" +:+ "dd" +:+ "T" +:+ "dd" +:+ ":" +:+
          "dd" +:+ ":" +:+ "dd" +:+ ".000Z").
  repeat first
    [ apply matches_app
    | apply year_digits; lia
    | apply two_digits; lia
    | reflexivity ].
Qed.

End TimestampForm.

(** C7.  The timestamps of the API.  The [timestamp] field of the status
    body is the rendering of the clock reading taken during the request, and
    the [lastExecution] fields of the two agent records are the renderings of
    the two clock readings taken during the request.  A rendering is the year,
    month, day, hour, minute and second of the reading, in UTC, followed by
    the characters [.000Z]: it has the form [dddd-dd-ddTdd:dd:dd.000Z], and
    its sub-second digits come from the format string, never from the
    clock. *)
Theorem timestamps_rendering (w : world) (n : nat) :
  gmtime_range (clock w n) ->
  gmtime_range (clock w (S n)) ->
  (exists has_api_key custom : bool,
      handle_api "/api/solana/status" w n =
        Run (Ok tt)
          [ SendHeader "Content-type" "application/json";
            SendResponse 200;
            EndHeaders;
            WfileWrite
              (encode (dumps (status_response has_api_key custom (clock w n)))) ]
          (S n) /\
      get "timestamp" (status_response has_api_key custom (clock w n)) =
        Some (JStr (timestamp (clock w n)))) /\
  handle_api "/api/agents" w n =
    Run (Ok tt)
      [ SendHeader "Content-type" "application/json";
        SendResponse 200;
        EndHeaders;
        WfileWrite (encode (dumps (agents_response (clock w n) (clock w (S n))))) ]
      (S (S n)) /\
  last_executions (agents_response (clock w n) (clock w (S n))) =
    [ Some (JStr (timestamp (clock w n)));
      Some (JStr (timestamp (clock w (S n)))) ] /\
  Forall
    (fun t =>
       timestamp t =
         repr_int (tm_year t) +:+ "-" +:+ zfill2 (tm_mon t) +:+ "-" +:+
         zfill2 (tm_mday t) +:+ "T" +:+ zfill2 (tm_hour t) +:+ ":" +:+
         zfill2 (tm_min t) +:+ ":" +:+ zfill2 (tm_sec t) +:+ ".000Z" /\
       matches iso_pattern (timestamp t) = true)
    [clock w n; clock w (S n)].
Proof.
  intros Hnow Hnext. split; [|split; [|split]].
  - eexists _, _. split; [apply handle_api_status | reflexivity].
  - apply handle_api_agents.
  - reflexivity.
  - repeat apply List.Forall_cons; try apply List.Forall_nil;
      (split; [apply timestamp_fields | now apply timestamp_form]).
Qed.

Lemma timestamps_rendering_witness :
  last_executions
    (agents_response (Examples.ticking 0) (Examples.ticking 1)) =
    [ Some (JStr "2026-11-03T12:30:00.000Z");
      Some (JStr "2026-11-03T12:30:01.000Z") ] /\
  matches iso_pattern (timestamp (Examples.ticking 0)) = true.
Proof.
  assert (Hrange : forall k : nat, (k < 2)%nat -> gmtime_range (Examples.ticking k)).
  { intros k Hk. unfold gmtime_range, Examples.ticking. simpl. lia. }
  destruct (timestamps_rendering Examples.demo 0%nat
              (Hrange 0%nat ltac:(lia)) (Hrange 1%nat ltac:(lia)))
    as (_ & _ & Hlast & Hform).
  split.
  - exact Hlast.
  - exact (proj2 (Forall_inv Hform)).
Defined.

(** *** Determinism (claim C9) *)

Lemma same_but_timestamps_refl (l : list event) : Forall2 same_but_timestamps l l.
Proof. induction l; constructor; [apply same_event | assumption]. Qed.

(** The calls of two runs of the handler on the same request, with the same
    files and the same environment variables, at two times.  (1) Both raise the
    same exception or both return.  (2) Their events are the same except for
    timestamp fields: event by event they are equal, or they write two JSON
    bodies that are equal once the [timestamp] and [lastExecution] fields are
    blanked.  (3) Unless the parsed path is [/api/solana/status] or
    [/api/agents], the events are equal.  (4) When the clock readings of the
    two runs agree, the events are equal. *)
Theorem two_run_determinism (urlparse : string -> result ParseResult)
    (raw : string) (files : string -> result file) (env : gmap string string)
    (clock1 clock2 : nat -> struct_time) (n1 n2 : nat) :
  let r1 := do_GET urlparse raw (World files env clock1) n1 in
  let r2 := do_GET urlparse raw (World files env clock2) n2 in
  outcome r1 = outcome r2 /\
  Forall2 same_but_timestamps (emitted r1) (emitted r2) /\
  ((forall pr : ParseResult,
       urlparse raw = Ok pr ->
       path pr <> "/api/solana/status" /\ path pr <> "/api/agents") ->
   emitted r1 = emitted r2) /\
  (clock1 n1 = clock2 n2 -> clock1 (S n1) = clock2 (S n2) ->
   emitted r1 = emitted r2).
Proof.
  intros r1 r2. subst r1 r2. unfold do_GET. run_handler.
  destruct (urlparse raw) as [pr|e]; run_handler;
    [|repeat split; constructor].
  destruct (startswith (path pr) "/api/") eqn:Hapi; run_handler.
  - unfold handle_api. run_handler.
    destruct (String.eqb (path pr) "/api/health") eqn:Hhealth;
      [|destruct (String.eqb (path pr) "/api/solana/status") eqn:Hstatus;
        [|destruct (String.eqb (path pr) "/api/agents") eqn:Hagents]];
      run_handler; cbv beta iota delta [environ clock].
    + repeat split; apply same_but_timestamps_refl.
    + split; [reflexivity|]. split; [|split].
      * repeat (apply List.Forall2_cons; [apply same_event|]).
        apply List.Forall2_cons; [|apply List.Forall2_nil]. apply same_json. reflexivity.
      * intros Hnot. destruct (Hnot pr eq_refl) as [Hne _].
        apply String.eqb_eq in Hstatus. contradiction.
      * intros E1 _. now rewrite E1.
    + split; [reflexivity|]. split; [|split].
      * repeat (apply List.Forall2_cons; [apply same_event|]).
        apply List.Forall2_cons; [|apply List.Forall2_nil]. apply same_json. reflexivity.
      * intros Hnot. destruct (Hnot pr eq_refl) as [_ Hne].
        apply String.eqb_eq in Hagents. contradiction.
      * intros E1 E2. now rewrite E1, E2.
    + repeat split; apply same_but_timestamps_refl.
  - cbv beta iota delta [fs].
    repeat (match goal with
            | |- context [files ?name] => destruct (files name) as [[[?|[]]]|[]]
            end; run_handler);
      repeat split; apply same_but_timestamps_refl.
Qed.

Lemma two_run_determinism_witness :
  emitted (do_GET urlparse_origin_form "/app.js" Examples.demo 0%nat) =
    emitted (do_GET urlparse_origin_form "/app.js"
               (World Examples.site Examples.rpc_env (fun _ => StructTime 2031 1 1 0 0 0))
               5%nat).
Proof.
  apply (proj1 (proj2 (proj2
    (two_run_determinism urlparse_origin_form "/app.js" Examples.site
       Examples.rpc_env Examples.ticking (fun _ => StructTime 2031 1 1 0 0 0)
       0%nat 5%nat)))).
  intros pr Hpr. injection Hpr as <-. split; discriminate.
Defined.

(** ** Further properties of the handler *)

Import Observations.

(** The run of a static request, by cases on the asset and on the fallback
    document. *)
Ltac static_run w Hparse Hapi :=
  unfold do_GET; run_handler; rewrite Hparse; run_handler; rewrite Hapi;
  run_handler; unfold not_found; case_fs w.

(** The run of an API request, by cases on the route. *)
Ltac api_run urlparse w n raw pr Hparse Hapi :=
  rewrite (do_GET_api urlparse w n raw pr Hparse Hapi); unfold handle_api, is_route;
  cbn [api_routes existsb];
  destruct (String.eqb (path pr) "/api/health");
    [|destruct (String.eqb (path pr) "/api/solana/status");
      [|destruct (String.eqb (path pr) "/api/agents")]].



(** X2.  The files that a request opens.  An API request opens none.  A
    static request opens the file named ["."] followed by its path; it opens
    [./index.html] next exactly when opening or reading the first file raised
    [FileNotFoundError]; it opens nothing else. *)
Theorem files_opened (urlparse : string -> result ParseResult)
    (w : world) (n : nat) (raw : string) (pr : ParseResult) :
  urlparse raw = Ok pr ->
  opened (do_GET urlparse raw w n) =
    if startswith (path pr) "/api/" then []
    else if not_found w ("." +:+ static_path (path pr))
         then ["." +:+ static_path (path pr); "./index.html"]
         else ["." +:+ static_path (path pr)].
Proof.
  intros Hparse. destruct (startswith (path pr) "/api/") eqn:Hapi.
  - rewrite (do_GET_api urlparse w n raw pr Hparse Hapi).
    apply (handle_api_opens_nothing (path pr) w n).
  - unfold do_GET; run_handler; rewrite Hparse; run_handler; rewrite Hapi;
      run_handler; unfold not_found.
    destruct (fs w ("." +:+ static_path (path pr))) as [[[?|[]]]|[]];
      run_handler; try reflexivity;
      destruct (fs w "./index.html") as [[[?|[]]]|[]]; reflexivity.
Qed.

Lemma files_opened_witness :
  opened (do_GET urlparse_origin_form "/dashboard" Examples.demo 0%nat) =
    ["./dashboard"; "./index.html"] /\
  opened (do_GET urlparse_origin_form "/secret.key" Examples.demo 0%nat) =
    ["./secret.key"] /\
  opened (do_GET urlparse_origin_form "/api/agents" Examples.demo 0%nat) = [].
Proof.
  split; [|split].
  - exact (files_opened urlparse_origin_form Examples.demo 0%nat "/dashboard" _ eq_refl).
  - exact (files_opened urlparse_origin_form Examples.demo 0%nat "/secret.key" _ eq_refl).
  - exact (files_opened urlparse_origin_form Examples.demo 0%nat "/api/agents" _ eq_refl).
Defined.

Lemma content_type_values (p : string) : In (content_type p) content_types.
Proof.
  unfold content_type, endswith_any, existsb, content_types.
  repeat match goal with
         | |- context [endswith p ?suf] => destruct (endswith p suf)
         end; simpl; tauto.
Qed.

(** Closes [known_event e] for one emitted event. *)
Ltac known_event_tac :=
  lazymatch goal with
  | |- known_event (SendResponse _) => first [left; reflexivity | right; reflexivity]
  | |- known_event (SendHeader _ (content_type _)) =>
      split; [reflexivity | apply content_type_values]
  | |- known_event (SendHeader _ _) => split; [reflexivity | simpl; tauto]
  | |- known_event _ => exact I
  end.

Ltac known_events_tac :=
  repeat (apply List.Forall_cons; [known_event_tac|]); apply List.Forall_nil.

(** The calls of the handler: the only statuses that it passes to
    [send_response] are 200 and 404, and the only header that it passes to
    [send_header] is [Content-type], with one of seven values. *)
Theorem only_known_events (urlparse : string -> result ParseResult)
    (w : world) (n : nat) (raw : string) :
  Forall known_event (emitted (do_GET urlparse raw w n)).
Proof.
  destruct (urlparse raw) as [pr|e] eqn:Hparse.
  - destruct (startswith (path pr) "/api/") eqn:Hapi.
    + api_run urlparse w n raw pr Hparse Hapi; known_events_tac.
    + static_run w Hparse Hapi; known_events_tac.
  - unfold do_GET. run_handler. rewrite Hparse. apply List.Forall_nil.
Qed.

(** X4.  A 404 is sent exactly in two situations: an API request whose path
    is none of the three routes, and a static request for which both the
    asset and [./index.html] are not found. *)
Theorem status_404_iff (urlparse : string -> result ParseResult)
    (w : world) (n : nat) (raw : string) (pr : ParseResult) :
  urlparse raw = Ok pr ->
  In (SendResponse 404) (emitted (do_GET urlparse raw w n)) <->
  (if startswith (path pr) "/api/" then negb (is_route (path pr))
   else not_found w ("." +:+ static_path (path pr)) &&
        not_found w "./index.html") = true.
Proof.
  intros Hparse. destruct (startswith (path pr) "/api/") eqn:Hapi.
  - api_run urlparse w n raw pr Hparse Hapi; simpl;
      (split; [intros Hin; try reflexivity;
               repeat (destruct Hin as [Hin|Hin]; try discriminate); contradiction
              | intros Hb; try discriminate; tauto]).
  - static_run w Hparse Hapi; simpl;
      (split; [intros Hin; try reflexivity;
               repeat (destruct Hin as [Hin|Hin]; try discriminate); contradiction
              | intros Hb; try discriminate; tauto]).
Qed.

Lemma status_404_iff_witness :
  In (SendResponse 404)
     (emitted (do_GET urlparse_origin_form "/missing.png" Examples.bare 0%nat)) /\
  ~ In (SendResponse 404)
      (emitted (do_GET urlparse_origin_form "/missing.png" Examples.demo 0%nat)).
Proof.
  split.
  - apply (status_404_iff urlparse_origin_form Examples.bare 0%nat "/missing.png" _
             eq_refl). reflexivity.
  - intros Hin.
    apply (status_404_iff urlparse_origin_form Examples.demo 0%nat "/missing.png" _
             eq_refl) in Hin. discriminate Hin.
Defined.

(** The filesystem errors that leave [do_GET] once the target is parsed,
    when [print] and the calls into the base class return.
    [FileNotFoundError] never does.  An API request raises nothing.  From a
    static request the only exception that escapes is the one raised by
    opening or reading the asset, or, when the asset is not found, the one
    raised by opening or reading [./index.html]. *)
Theorem escaping_exception (urlparse : string -> result ParseResult)
    (w : world) (n : nat) (raw : string) (pr : ParseResult) (e : exn) :
  urlparse raw = Ok pr ->
  outcome (do_GET urlparse raw w n) = Raise e ->
  e <> FileNotFoundError /\
  startswith (path pr) "/api/" = false /\
  (lookup_error w ("." +:+ static_path (path pr)) = Some e \/
   (not_found w ("." +:+ static_path (path pr)) = true /\
    lookup_error w "./index.html" = Some e)).
Proof.
  intros Hparse. destruct (startswith (path pr) "/api/") eqn:Hapi.
  - api_run urlparse w n raw pr Hparse Hapi; discriminate.
  - unfold lookup_error. static_run w Hparse Hapi; intros Hraise;
      try discriminate; injection Hraise as <-;
      (split; [discriminate | split; [reflexivity | tauto]]).
Qed.

Lemma escaping_exception_witness :
  PermissionError <> FileNotFoundError /\
  lookup_error Examples.demo "./secret.key" = Some PermissionError.
Proof.
  destruct (escaping_exception urlparse_origin_form Examples.demo 0%nat
              "/secret.key" _ PermissionError eq_refl eq_refl)
    as (Hne & _ & [Hasset | [Hnf _]]).
  - split; [exact Hne | exact Hasset].
  - discriminate Hnf.
Defined.

(** X6.  A complete response.  In a world where no read of an opened file
    raises [FileNotFoundError], a request that [do_GET] returns from has been
    answered with exactly one status, one [Content-type] header, the end of
    the headers and one body, in the order of the static branch or in the
    order of the API branch. *)
Theorem complete_response (urlparse : string -> result ParseResult)
    (w : world) (n : nat) (raw : string) (pr : ParseResult) :
  urlparse raw = Ok pr ->
  (forall name : string, fs w name <> Ok (File (Raise FileNotFoundError))) ->
  outcome (do_GET urlparse raw w n) = Ok tt ->
  exists (code : Z) (ctype : string) (body : bytes),
    response (do_GET urlparse raw w n) = static_response code ctype body \/
    response (do_GET urlparse raw w n) = api_response code body.
Proof.
  intros Hparse Hread. destruct (startswith (path pr) "/api/") eqn:Hapi.
  - api_run urlparse w n raw pr Hparse Hapi; intros _;
      eexists _, "", _; right; reflexivity.
  - pose proof (Hread ("." +:+ static_path (path pr))) as Hasset.
    pose proof (Hread "./index.html") as Hindex.
    unfold do_GET; run_handler; rewrite Hparse; run_handler; rewrite Hapi;
      run_handler.
    destruct (fs w ("." +:+ static_path (path pr))) as [[[?|[]]]|[]];
      run_handler; try discriminate; try (now destruct Hasset);
      try (intros _; eexists _, _, _; left; reflexivity);
      destruct (fs w "./index.html") as [[[?|[]]]|[]];
      run_handler; try discriminate; try (now destruct Hindex);
      intros _; eexists _, _, _; left; reflexivity.
Qed.

Lemma complete_response_witness :
  exists (code : Z) (ctype : string) (body : bytes),
    response (do_GET urlparse_origin_form "/app.js" Examples.demo 0%nat) =
      static_response code ctype body \/
    response (do_GET urlparse_origin_form "/app.js" Examples.demo 0%nat) =
      api_response code body.
Proof.
  apply (complete_response urlparse_origin_form Examples.demo 0%nat "/app.js" _
           eq_refl).
  - intros name. unfold Examples.demo, Examples.site. cbn [fs].
    repeat match goal with
           | |- context [String.eqb name ?x] => destruct (String.eqb name x)
           end; discriminate.
  - reflexivity.
Defined.

(** X7.  The [try] block of the static branch spans the whole response.  When
    the asset opens and its read raises [FileNotFoundError], the status 200 and
    the headers of the asset have already been sent; the same [except] clause
    then runs the fallback, which sends a second status line and second
    headers after them.  [index] is the content of [./index.html], [None]
    when that file is absent. *)
Theorem late_not_found (urlparse : string -> result ParseResult)
    (w : world) (n : nat) (raw : string) (pr : ParseResult) (index : option bytes) :
  urlparse raw = Ok pr ->
  startswith (path pr) "/api/" = false ->
  fs w ("." +:+ static_path (path pr)) = Ok (File (Raise FileNotFoundError)) ->
  fs w "./index.html" =
    match index with
    | Some data => Ok (File (Ok data))
    | None => Raise FileNotFoundError
    end ->
  outcome (do_GET urlparse raw w n) = Ok tt /\
  response (do_GET urlparse raw w n) =
    SendResponse 200 ::
    SendHeader "Content-type" (content_type (static_path (path pr))) ::
    EndHeaders ::
    match index with
    | Some data => static_response 200 "text/html" data
    | None => static_response 404 "text/html" (b "404 Not Found")
    end.
Proof.
  intros Hparse Hapi Hasset Hindex.
  unfold do_GET; run_handler; rewrite Hparse; run_handler; rewrite Hapi;
    run_handler; rewrite Hasset; run_handler; rewrite Hindex.
  destruct index; split; reflexivity.
Qed.

Lemma late_not_found_witness :
  response (do_GET urlparse_origin_form "/report.css" Scenarios.flaky 0%nat) =
    [ SendResponse 200; SendHeader "Content-type" "text/css"; EndHeaders;
      SendResponse 200; SendHeader "Content-type" "text/html"; EndHeaders;
      WfileWrite (b "<html>home</html>") ].
Proof.
  rewrite (proj2 (late_not_found urlparse_origin_form Scenarios.flaky 0%nat
                    "/report.css" _ (Some (b "<html>home</html>"))
                    eq_refl eq_refl eq_refl eq_refl)).
  reflexivity.
Defined.

(** The calls of a static request are the same under any two environments
    and any two clocks, and the handler itself takes no reading of the clock
    for them. *)
Theorem static_ignores_environment_and_clock
    (urlparse : string -> result ParseResult) (raw : string) (pr : ParseResult)
    (files : string -> result file) (env1 env2 : gmap string string)
    (clock1 clock2 : nat -> struct_time) (n : nat) :
  urlparse raw = Ok pr ->
  startswith (path pr) "/api/" = false ->
  do_GET urlparse raw (World files env1 clock1) n =
    do_GET urlparse raw (World files env2 clock2) n /\
  reads (do_GET urlparse raw (World files env1 clock1) n) = n.
Proof.
  intros Hparse Hapi.
  unfold do_GET; run_handler; rewrite Hparse; run_handler; rewrite Hapi;
    run_handler; cbv beta iota delta [fs].
  repeat (match goal with
          | |- context [files ?name] => destruct (files name) as [[[?|[]]]|[]]
          end; run_handler);
    split; reflexivity.
Qed.

Lemma static_ignores_environment_and_clock_witness :
  do_GET urlparse_origin_form "/app.js"
    (World Examples.site Examples.rpc_env Examples.ticking) 3%nat =
  do_GET urlparse_origin_form "/app.js"
    (World Examples.site Scenarios.key_env (fun _ => StructTime 1999 12 31 23 59 59))
    3%nat.
Proof.
  exact (proj1 (static_ignores_environment_and_clock urlparse_origin_form "/app.js" _
                  Examples.site Examples.rpc_env Scenarios.key_env Examples.ticking
                  (fun _ => StructTime 1999 12 31 23 59 59) 3%nat eq_refl eq_refl)).
Defined.

Lemma status_response_key (key1 key2 custom : bool) (now : struct_time) :
  status_response key1 custom now = status_response key2 custom now.
Proof. unfold status_response. now rewrite !py_or_true. Qed.

(** X9.  An API request reads no file, and of the environment it observes
    one bit: whether [INSTANT_NODES_RPC_URL] is set.  Its run is the same in
    two worlds with the same clock whose environments agree on that, whatever
    the files, the values of the variables and the presence of
    [SOLANA_RPC_API_KEY]. *)
Theorem api_ignores_files_and_values
    (urlparse : string -> result ParseResult) (raw : string) (pr : ParseResult)
    (files1 files2 : string -> result file) (env1 env2 : gmap string string)
    (clock : nat -> struct_time) (n : nat) :
  urlparse raw = Ok pr ->
  startswith (path pr) "/api/" = true ->
  (is_Some (env1 !! "INSTANT_NODES_RPC_URL") <->
   is_Some (env2 !! "INSTANT_NODES_RPC_URL")) ->
  do_GET urlparse raw (World files1 env1 clock) n =
    do_GET urlparse raw (World files2 env2 clock) n.
Proof.
  intros Hparse Hapi Hset.
  rewrite !(do_GET_api urlparse _ n raw pr Hparse Hapi). cbv zeta.
  unfold handle_api.
  destruct (String.eqb (path pr) "/api/health");
    [|destruct (String.eqb (path pr) "/api/solana/status");
      [|destruct (String.eqb (path pr) "/api/agents")]];
    try reflexivity.
  run_handler. cbv beta iota delta [Effects.environ Effects.clock].
  rewrite (bool_decide_ext _ _ Hset).
  rewrite (status_response_key
             (bool_decide (is_Some (env1 !! "SOLANA_RPC_API_KEY")))
             (bool_decide (is_Some (env2 !! "SOLANA_RPC_API_KEY")))).
  reflexivity.
Qed.

Lemma api_ignores_files_and_values_witness :
  do_GET urlparse_origin_form "/api/solana/status"
    (World Examples.site ∅ Examples.ticking) 0%nat =
  do_GET urlparse_origin_form "/api/solana/status"
    (World Examples.empty_site Scenarios.key_env Examples.ticking) 0%nat.
Proof.
  apply (api_ignores_files_and_values urlparse_origin_form "/api/solana/status" _
           Examples.site Examples.empty_site ∅ Scenarios.key_env Examples.ticking
           0%nat eq_refl eq_refl).
  split; intros [v Hv]; discriminate Hv.
Defined.

(** ** The port read at start-up *)

Import Startup.

Section PortFacts.

#[local] Arguments String.append !_ _ / : simpl nomatch.

Lemma space_char (c : ascii) :
  is_space c = true ->
  is_digit c = false /\ Ascii.eqb c "_" = false /\
  Ascii.eqb c "-" = false /\ Ascii.eqb c "+" = false.
Proof.
  destruct c as [[] [] [] [] [] [] [] []]; vm_compute; intros H;
    try discriminate H; repeat split.
Qed.

Lemma lstrip_lead (lead rest : string) :
  all_space lead = true -> lstrip (lead +:+ rest) = lstrip rest.
Proof.
  induction lead as [|c lead IH]; simpl; [reflexivity|].
  intros H. apply andb_true_iff in H as [Hc H]. rewrite Hc. now apply IH.
Qed.

Lemma numeral_trail (trail : string) :
  all_space trail = true -> numeral true trail = Some EmptyString.
Proof.
  destruct trail as [|c r]; simpl; [reflexivity|].
  intros H. apply andb_true_iff in H as [Hc H].
  destruct (space_char c Hc) as (-> & -> & _). now rewrite Hc, H.
Qed.

Lemma numeral_digits (d : Decimal.uint) (trail : string) (after_digit : bool) :
  all_space trail = true ->
  d <> Decimal.Nil \/ after_digit = true ->
  numeral after_digit (NilEmpty.string_of_uint d +:+ trail) =
    Some (NilEmpty.string_of_uint d).
Proof.
  intros Htrail. revert after_digit.
  induction d as [|d IH|d IH|d IH|d IH|d IH|d IH|d IH|d IH|d IH|d IH];
    intros after_digit Hd; simpl;
    try (rewrite (IH true) by (now right); reflexivity).
  destruct Hd as [Hd| ->]; [now destruct Hd | now apply numeral_trail].
Qed.

(** [int] of the decimal digits of a number, in surrounding whitespace. *)
Lemma int_of_digits (d : Decimal.uint) (lead trail : string) :
  d <> Decimal.Nil -> all_space lead = true -> all_space trail = true ->
  int_of_str (lead +:+ NilEmpty.string_of_uint d +:+ trail) = Ok (Z.of_uint d) /\
  int_of_str (lead +:+ String "-" (NilEmpty.string_of_uint d) +:+ trail) =
    Ok (- Z.of_uint d).
Proof.
  intros Hd Hlead Htrail. unfold int_of_str. split; rewrite lstrip_lead by assumption.
  - pose proof (numeral_digits d trail false Htrail (or_introl Hd)) as Hnum.
    destruct d; try (now destruct Hd); simpl in *; rewrite Hnum; simpl;
      now rewrite NilEmpty.usu.
  - simpl.
    rewrite (numeral_digits d trail false Htrail (or_introl Hd)). simpl.
    now rewrite NilEmpty.usu.
Qed.

(** [int(repr(z))] is [z], also with whitespace around the numeral. *)
Lemma int_of_repr (z : Z) (lead trail : string) :
  all_space lead = true -> all_space trail = true ->
  int_of_str (lead +:+ repr_int z +:+ trail) = Ok z.
Proof.
  intros Hlead Htrail. unfold repr_int. destruct z as [|p|p]; simpl Z.to_int.
  - exact (proj1 (int_of_digits (Decimal.D0 Decimal.Nil) lead trail
                    ltac:(discriminate) Hlead Htrail)).
  - pose proof (DecimalPos.Unsigned.to_uint_nonnil p) as Hd.
    destruct (int_of_digits (Pos.to_uint p) lead trail Hd Hlead Htrail) as [H _].
    unfold NilZero.string_of_int, NilZero.string_of_uint.
    destruct (Pos.to_uint p) eqn:E; try (now destruct Hd); rewrite H;
      unfold Z.of_uint; rewrite <- E, DecimalPos.Unsigned.of_to; reflexivity.
  - pose proof (DecimalPos.Unsigned.to_uint_nonnil p) as Hd.
    destruct (int_of_digits (Pos.to_uint p) lead trail Hd Hlead Htrail) as [_ H].
    unfold NilZero.string_of_int, NilZero.string_of_uint.
    destruct (Pos.to_uint p) eqn:E; try (now destruct Hd); rewrite H;
      unfold Z.of_uint; rewrite <- E, DecimalPos.Unsigned.of_to; reflexivity.
Qed.

End PortFacts.

(** X10.  The port.  With [PORT] unset the port is 5000.  With [PORT] set to
    the decimal digits of an integer, alone or with whitespace around them,
    the port is that integer: the line checks no range, so zero, negative
    numbers and numbers above 65535 are taken as they are. *)
Theorem PORT_value (environ : gmap string string) (lead trail : string) (z : Z) :
  all_space lead = true ->
  all_space trail = true ->
  (String.length (lead +:+ repr_int z +:+ trail) <= 4300)%nat ->
  PORT (<["PORT" := lead +:+ repr_int z +:+ trail]> environ) = Ok z /\
  PORT (delete "PORT" environ) = Ok 5000.
Proof.
  intros Hlead Htrail _. unfold PORT.
  rewrite lookup_insert_eq, lookup_delete_eq. split; [|reflexivity].
  now apply int_of_repr.
Qed.

Lemma PORT_value_witness :
  PORT (<["PORT" := "8080"]> Scenarios.key_env) = Ok 8080 /\
  PORT (<["PORT" := " -70000 "]> Scenarios.key_env) = Ok (-70000) /\
  PORT Scenarios.key_env = Ok 5000.
Proof.
  split; [|split].
  - exact (proj1 (PORT_value Scenarios.key_env "" "" 8080 eq_refl eq_refl
                    ltac:(vm_compute; lia))).
  - exact (proj1 (PORT_value Scenarios.key_env " " " " (-70000) eq_refl eq_refl
                    ltac:(vm_compute; lia))).
  - exact (proj2 (PORT_value Scenarios.key_env "" "" 8080 eq_refl eq_refl
                    ltac:(vm_compute; lia))).
Defined.

Section PortErrors.

#[local] Arguments String.append !_ _ / : simpl nomatch.

(** What a string that [numeral] accepts is made of. *)
Lemma numeral_chars (s : string) (after_digit : bool) (ds : string) :
  numeral after_digit s = Some ds ->
  (after_digit = true \/ any_char is_digit s = true) /\
  any_char (fun c => negb (numeral_char c)) s = false.
Proof.
  revert after_digit ds; induction s as [|c r IH]; intros after_digit ds; simpl.
  - destruct after_digit; [|discriminate]. intros _. now split; [left|].
  - unfold numeral_char. destruct (is_digit c) eqn:Hdigit; simpl.
    + destruct (numeral true r) as [ds'|] eqn:Hr; [|discriminate]. intros _.
      destruct (IH true ds' Hr) as [_ Hjunk]. now split; [right|].
    + destruct (Ascii.eqb c "_") eqn:Hunder.
      * rewrite orb_true_r. simpl.
        destruct after_digit; [|discriminate]. intros Hr.
        destruct (IH false ds Hr) as [Hd Hjunk]. split; [now left | exact Hjunk].
      * destruct (is_space c) eqn:Hspace; [|discriminate]. simpl.
        destruct after_digit; [|discriminate]. simpl.
        destruct (all_space r) eqn:Hall; [|discriminate]. intros _.
        split; [now left|].
        clear IH. induction r as [|c' r IHr]; simpl in *; [reflexivity|].
        apply andb_true_iff in Hall as [Hc' Hall].
        destruct (space_char c' Hc') as (Hd' & Hu' & Hm' & Hp').
        unfold numeral_char in *. rewrite Hc', Hd', Hu', Hm', Hp'. simpl.
        now apply IHr.
Qed.

Lemma lstrip_chars (test : ascii -> bool) (s : string) :
  (forall c, is_space c = true -> test c = false) ->
  any_char test s = any_char test (lstrip s).
Proof.
  intros Htest. induction s as [|c r IH]; simpl; [reflexivity|].
  destruct (is_space c) eqn:Hc; [|reflexivity]. now rewrite (Htest c Hc).
Qed.

(** What a string that [int] accepts is made of: some digit, and nothing but
    digits, whitespace, underscores and signs. *)
Lemma int_of_str_chars (s : string) (z : Z) :
  int_of_str s = Ok z ->
  any_char is_digit s = true /\
  any_char (fun c => negb (numeral_char c)) s = false.
Proof.
  unfold int_of_str.
  rewrite (lstrip_chars is_digit s) by (intros c Hc; apply (space_char c Hc)).
  rewrite (lstrip_chars (fun c => negb (numeral_char c)) s)
    by (intros c Hc; unfold numeral_char; now rewrite Hc, orb_true_r).
  destruct (lstrip s) as [|c r]; [discriminate|].
  destruct (Ascii.eqb c "-") eqn:Hminus;
    [|destruct (Ascii.eqb c "+") eqn:Hplus].
  - destruct (numeral false r) as [ds|] eqn:Hr; [|discriminate]. intros _.
    destruct (numeral_chars r false ds Hr) as [[Hf|Hd] Hjunk]; [discriminate|].
    simpl. unfold numeral_char at 1. rewrite Hminus, Hd, Hjunk, !orb_true_r.
    now split.
  - destruct (numeral false r) as [ds|] eqn:Hr; [|discriminate]. intros _.
    destruct (numeral_chars r false ds Hr) as [[Hf|Hd] Hjunk]; [discriminate|].
    simpl. unfold numeral_char at 1. rewrite Hplus, Hd, Hjunk, !orb_true_r.
    now split.
  - destruct (numeral false (String c r)) as [ds|] eqn:Hr; [|discriminate].
    intros _.
    destruct (numeral_chars (String c r) false ds Hr) as [[Hf|Hd] Hjunk];
      [discriminate|]. now split.
Qed.

End PortErrors.

(** X11.  A value of [PORT] that is not a numeral, among the values whose
    characters are all below U+0100.  When [PORT] is set to such a string
    without any of the digits [0] to [9] (the empty string is one), or with a
    character that is not one of these digits, whitespace, an underscore or a
    sign, reading the port raises [ValueError]: the module stops loading and
    no server is started. *)
Theorem PORT_invalid (environ : gmap string string) (value : string) :
  environ !! "PORT" = Some value ->
  any_char is_digit value = false \/
  any_char (fun c => negb (numeral_char c)) value = true ->
  PORT environ = Raise ValueError.
Proof.
  intros Hset Hbad. unfold PORT. rewrite Hset.
  destruct (int_of_str value) as [z|e] eqn:Hint.
  - destruct (int_of_str_chars value z Hint) as [Hdigit Hjunk].
    destruct Hbad; congruence.
  - unfold int_of_str in Hint.
    destruct (lstrip value) as [|c r]; simpl in Hint;
      repeat match type of Hint with
             | context [if ?x then _ else _] => destruct x
             | context [match ?x with Some _ => _ | None => _ end] => destruct x
             end; congruence.
Qed.

Lemma PORT_invalid_witness :
  PORT (<["PORT" := ""]> Scenarios.key_env) = Raise ValueError /\
  PORT (<["PORT" := "8080/tcp"]> Scenarios.key_env) = Raise ValueError.
Proof.
  split.
  - apply (PORT_invalid (<["PORT" := ""]> Scenarios.key_env) "").
    + apply lookup_insert_eq.
    + left. reflexivity.
  - apply (PORT_invalid (<["PORT" := "8080/tcp"]> Scenarios.key_env) "8080/tcp").
    + apply lookup_insert_eq.
    + right. reflexivity.
Defined.

(** ** Further properties of the content type and of the timestamp *)

(** X12.  Suffixes outside the table.  A path that ends with a suffix that
    neither ends with a suffix of the table nor is the end of one is served
    as [application/octet-stream].  The comparison is case-sensitive, and the
    table has no row for [.svg], [.ico] or [.htm], so [/LOGO.PNG],
    [/icon.svg] and [/page.htm] are all served as octet streams. *)
Theorem unlisted_suffix (p suffix : string) :
  Forall (fun row => endswith suffix row.1 = false /\ endswith row.1 suffix = false)
    extension_table ->
  endswith p suffix = true ->
  content_type p = "application/octet-stream".
Proof.
  intros Hrows Hp. apply (proj2 (content_type_table p)).
  apply (Forall_impl _ _ _ Hrows). intros row [H1 H2].
  exact (endswith_excludes p suffix row.1 H1 H2 Hp).
Qed.

Lemma unlisted_suffix_witness :
  content_type "/img/LOGO.PNG" = "application/octet-stream" /\
  content_type "/img/icon.svg" = "application/octet-stream" /\
  content_type "/page.htm" = "application/octet-stream".
Proof.
  split; [|split].
  - apply (unlisted_suffix "/img/LOGO.PNG" ".PNG"); [|reflexivity].
    repeat apply List.Forall_cons; try apply List.Forall_nil; split; reflexivity.
  - apply (unlisted_suffix "/img/icon.svg" ".svg"); [|reflexivity].
    repeat apply List.Forall_cons; try apply List.Forall_nil; split; reflexivity.
  - apply (unlisted_suffix "/page.htm" ".htm"); [|reflexivity].
    repeat apply List.Forall_cons; try apply List.Forall_nil; split; reflexivity.
Defined.

Section TimestampInjective.

#[local] Arguments String.append !_ _ / : simpl nomatch.

Lemma matches_length (pattern s : string) :
  matches pattern s = true -> String.length s = String.length pattern.
Proof.
  revert s; induction pattern as [|p pattern IH]; intros [|c s] H; simpl in *;
    try discriminate; [reflexivity|].
  apply andb_true_iff in H as [_ H]. f_equal. now apply IH.
Qed.

Lemma app_inj_length (a1 a2 r1 r2 : string) :
  String.length a1 = String.length a2 -> a1 +:+ r1 = a2 +:+ r2 ->
  a1 = a2 /\ r1 = r2.
Proof.
  revert a2; induction a1 as [|c a1 IH]; intros [|d a2] Hlen Heq; simpl in *;
    try discriminate; [now split|].
  injection Heq as -> Heq. injection Hlen as Hlen.
  destruct (IH a2 Hlen Heq) as [-> ->]. now split.
Qed.

Lemma repr_int_inj (y1 y2 : Z) : repr_int y1 = repr_int y2 -> y1 = y2.
Proof.
  intros H.
  assert (E : int_of_str ("" +:+ repr_int y1 +:+ "") =
              int_of_str ("" +:+ repr_int y2 +:+ "")) by now rewrite H.
  rewrite !int_of_repr in E by reflexivity. now injection E.
Qed.

Lemma zfill2_decode (z : Z) : 0 <= z <= 99 -> int_of_str (zfill2 z) = Ok z.
Proof.
  intros Hz.
  assert (Hall : forallb (fun z => match int_of_str (zfill2 z) with
                                   | Ok v => Z.eqb v z
                                   | Raise _ => false
                                   end)
                   (List.map (fun k => 0 + Z.of_nat k) (seq 0 (Z.to_nat 100)))
                 = true) by (vm_compute; reflexivity).
  pose proof (range_check _ _ _ Hall z ltac:(lia)) as H. simpl in H.
  destruct (int_of_str (zfill2 z)) as [v|]; [|discriminate].
  apply Z.eqb_eq in H. now subst.
Qed.

Lemma zfill2_inj (z1 z2 : Z) :
  0 <= z1 <= 99 -> 0 <= z2 <= 99 -> zfill2 z1 = zfill2 z2 -> z1 = z2.
Proof.
  intros H1 H2 H. pose proof (zfill2_decode z1 H1) as E1.
  rewrite H, (zfill2_decode z2 H2) in E1. now injection E1.
Qed.

Lemma zfill2_length (z : Z) : 0 <= z <= 99 -> String.length (zfill2 z) = 2%nat.
Proof. intros Hz. exact (matches_length "dd" _ (two_digits z Hz)). Qed.

Lemma year_length (y : Z) : 1000 <= y <= 9999 -> String.length (repr_int y) = 4%nat.
Proof. intros Hy. exact (matches_length "dddd" _ (year_digits y Hy)). Qed.

End TimestampInjective.

(** X13.  The timestamp loses nothing of the second it renders: two clock
    readings in the ranges of [gmtime] that render to the same timestamp are
    the same year, month, day, hour, minute and second. *)
Theorem timestamp_injective (t1 t2 : struct_time) :
  gmtime_range t1 -> gmtime_range t2 ->
  timestamp t1 = timestamp t2 -> t1 = t2.
Proof.
  intros (Hy1 & Hm1 & Hd1 & HH1 & HM1 & HS1) (Hy2 & Hm2 & Hd2 & HH2 & HM2 & HS2).
  rewrite !timestamp_fields.
  destruct t1 as [y1 m1 d1 H1 M1 S1], t2 as [y2 m2 d2 H2 M2 S2]. simpl in *.
  intros E.
  apply app_inj_length in E as [Ey E]; [|rewrite !year_length; lia].
  apply (app_inj_length "-" "-") in E as [_ E]; [|reflexivity].
  apply app_inj_length in E as [Em E]; [|rewrite !zfill2_length; lia].
  apply (app_inj_length "-" "-") in E as [_ E]; [|reflexivity].
  apply app_inj_length in E as [Ed E]; [|rewrite !zfill2_length; lia].
  apply (app_inj_length "T" "T") in E as [_ E]; [|reflexivity].
  apply app_inj_length in E as [EH E]; [|rewrite !zfill2_length; lia].
  apply (app_inj_length ":" ":") in E as [_ E]; [|reflexivity].
  apply app_inj_length in E as [EM E]; [|rewrite !zfill2_length; lia].
  apply (app_inj_length ":" ":") in E as [_ E]; [|reflexivity].
  apply app_inj_length in E as [ES _]; [|rewrite !zfill2_length; lia].
  apply repr_int_inj in Ey. apply zfill2_inj in Em, Ed, EH, EM, ES; try lia.
  now subst.
Qed.

Lemma timestamp_injective_witness :
  Examples.ticking 4 = StructTime 2026 11 3 12 30 4.
Proof.
  apply timestamp_injective; [| |reflexivity];
    unfold gmtime_range, Examples.ticking; simpl; lia.
Defined.

(** ** Fragments and path parameters *)

Section UrlParts.

#[local] Arguments String.append !_ _ / : simpl nomatch.

Lemma split1_fragment (c : ascii) (url rest : string) :
  (split1 c (url +:+ String c rest)).1 = (split1 c url).1.
Proof.
  induction url as [|a url IH]; simpl.
  - now rewrite Ascii.eqb_refl.
  - destruct (Ascii.eqb a c); [reflexivity|].
    destruct (split1 c (url +:+ String c rest)), (split1 c url). simpl in *.
    now f_equal.
Qed.

Lemma split1_absent (c : ascii) (url : string) :
  contains c url = false -> split1 c url = (url, None).
Proof.
  induction url as [|a url IH]; simpl; [reflexivity|].
  destruct (Ascii.eqb a c); [discriminate|]. intros H. now rewrite (IH H).
Qed.

Lemma contains_app (c : ascii) (x y : string) :
  contains c (x +:+ y) = contains c x || contains c y.
Proof.
  induction x as [|a x IH]; simpl; [reflexivity|]. now destruct (Ascii.eqb a c).
Qed.

Lemma rfind_absent (c : ascii) (y : string) :
  contains c y = false -> rfind c y = None.
Proof.
  induction y as [|a y IH]; simpl; [reflexivity|].
  destruct (Ascii.eqb a c); [discriminate|]. intros H. now rewrite (IH H).
Qed.

Lemma rfind_app_absent (c : ascii) (x y : string) :
  contains c y = false -> rfind c (x +:+ y) = rfind c x.
Proof.
  intros Hy. induction x as [|a x IH]; simpl; [now apply rfind_absent|].
  now rewrite IH.
Qed.

Lemma rfind_present (c : ascii) (x : string) :
  contains c x = true -> exists i, rfind c x = Some i /\ (i < String.length x)%nat.
Proof.
  induction x as [|a x IH]; simpl; [discriminate|].
  destruct (rfind c x) as [j|] eqn:Hj.
  - intros _. exists (S j). split; [reflexivity|].
    destruct (contains c x) eqn:Hc.
    + destruct (IH eq_refl) as (i & Hi & Hlt). injection Hi as <-. lia.
    + rewrite (rfind_absent c x Hc) in Hj. discriminate.
  - destruct (Ascii.eqb a c); [|intros Hc; destruct (IH Hc) as (i & Hi & _);
                                  discriminate].
    intros _. exists 0%nat. split; [reflexivity | lia].
Qed.

Lemma find_from_app (c : ascii) (x rest : string) (i : nat) :
  contains c x = false -> (i <= String.length x)%nat ->
  find_from c i (x +:+ String c rest) = Some (String.length x).
Proof.
  revert i; induction x as [|a x IH]; intros i Hx Hi; simpl in *.
  - assert (i = 0%nat) as -> by lia. now rewrite Ascii.eqb_refl.
  - destruct (Ascii.eqb a c); [discriminate|].
    destruct i as [|i]; rewrite IH by (assumption || lia); reflexivity.
Qed.

Lemma slice_to_app (x rest : string) : slice_to (String.length x) (x +:+ rest) = x.
Proof.
  unfold slice_to. induction x as [|a x IH]; simpl.
  - now destruct rest.
  - now rewrite IH.
Qed.

(** The path of a target with a fragment appended. *)
Lemma urlparse_origin_form_fragment (raw frag : string) :
  exists p1 p2,
    urlparse_origin_form (raw +:+ "#" +:+ frag) = Ok p1 /\
    urlparse_origin_form raw = Ok p2 /\ path p1 = path p2.
Proof.
  unfold urlparse_origin_form.
  pose proof (split1_fragment "#" raw frag) as Hcut.
  change ("#" +:+ frag) with (String "#" frag).
  destruct (split1 "#" (raw +:+ String "#" frag)) as [u1 f1].
  destruct (split1 "#" raw) as [u2 f2]. simpl in Hcut. subst u2.
  destruct (split1 "?" u1) as [v q].
  destruct (if contains ";" v then _splitparams v else (v, "")) as [x ps].
  eexists _, _. repeat split.
Qed.

(** The path of a target with parameters appended to its last segment. *)
Lemma urlparse_origin_form_params (p prm : string) :
  contains "/" p = true ->
  contains "#" p = false -> contains "?" p = false -> contains ";" p = false ->
  contains "/" prm = false -> contains "#" prm = false -> contains "?" prm = false ->
  exists p1 p2,
    urlparse_origin_form (p +:+ ";" +:+ prm) = Ok p1 /\
    urlparse_origin_form p = Ok p2 /\ path p1 = p /\ path p2 = p.
Proof.
  intros Hslash Hhash Hquery Hsemi Hslash' Hhash' Hquery'.
  change (";" +:+ prm) with (String ";" prm).
  assert (Hc : forall c, contains c (p +:+ String ";" prm) =
                         contains c p || (Ascii.eqb ";" c || contains c prm)).
  { intros c. rewrite contains_app. simpl. now destruct (Ascii.eqb ";" c). }
  unfold urlparse_origin_form.
  rewrite (split1_absent "#" (p +:+ String ";" prm))
    by (rewrite Hc, Hhash, Hhash'; reflexivity).
  rewrite (split1_absent "?" (p +:+ String ";" prm))
    by (rewrite Hc, Hquery, Hquery'; reflexivity).
  rewrite (split1_absent "#" p Hhash), (split1_absent "?" p Hquery), Hsemi.
  rewrite (Hc ";"%char), Hsemi. simpl orb. cbv iota.
  unfold _splitparams. rewrite (Hc "/"%char), Hslash. simpl orb. cbv iota.
  rewrite (rfind_app_absent "/" p (String ";" prm))
    by (simpl; exact Hslash').
  destruct (rfind_present "/" p Hslash) as (i & -> & Hi). simpl default.
  rewrite (find_from_app ";" p prm i Hsemi) by lia.
  rewrite slice_to_app. eexists _, _. repeat split.
Qed.

End UrlParts.

(** X14.  Besides the query string, the handler never sees the fragment of a
    request target in origin form, nor the parameters that follow a [;] in its
    last segment: appending ["#" frag] to a target, or [";" prm] to a target
    that is a plain path, leaves the run as it was.  So [/api/health;v=1]
    reaches the health route and [/index.html;x] serves [./index.html]. *)
Theorem fragment_and_parameters_discarded :
  (forall (w : world) (n : nat) (raw frag : string),
      origin_form raw = true ->
      do_GET urlparse_origin_form (raw +:+ "#" +:+ frag) w n =
      do_GET urlparse_origin_form raw w n) /\
  (forall (w : world) (n : nat) (p prm : string),
      origin_form p = true ->
      contains "#" p = false -> contains "?" p = false -> contains ";" p = false ->
      contains "/" prm = false -> contains "#" prm = false ->
      contains "?" prm = false ->
      do_GET urlparse_origin_form (p +:+ ";" +:+ prm) w n =
      do_GET urlparse_origin_form p w n).
Proof.
  split.
  - intros w n raw frag _.
    destruct (urlparse_origin_form_fragment raw frag) as (p1 & p2 & H1 & H2 & Hp).
    exact (do_GET_path_only urlparse_origin_form w n _ _ p1 p2 H1 H2 Hp).
  - intros w n p prm Horigin Hhash Hquery Hsemi Hslash' Hhash' Hquery'.
    assert (Hslash : contains "/" p = true).
    { unfold origin_form, startswith in Horigin.
      repeat (apply andb_true_iff in Horigin as [Horigin _]).
      destruct (prefix_inv "/" p Horigin) as [r ->]. reflexivity. }
    destruct (urlparse_origin_form_params p prm Hslash Hhash Hquery Hsemi
                Hslash' Hhash' Hquery') as (p1 & p2 & H1 & H2 & Hp1 & Hp2).
    apply (do_GET_path_only urlparse_origin_form w n _ _ p1 p2 H1 H2).
    congruence.
Qed.

Lemma fragment_and_parameters_discarded_witness :
  do_GET urlparse_origin_form ("/index.html" +:+ "#" +:+ "top") Examples.demo 0%nat =
    do_GET urlparse_origin_form "/index.html" Examples.demo 0%nat /\
  do_GET urlparse_origin_form ("/api/health" +:+ ";" +:+ "v=1") Examples.demo 0%nat =
    do_GET urlparse_origin_form "/api/health" Examples.demo 0%nat.
Proof.
  split.
  - apply (proj1 fragment_and_parameters_discarded). reflexivity.
  - apply (proj2 fragment_and_parameters_discarded); reflexivity.
Defined.

(** ** Reach of the static branch *)

Lemma urlparse_origin_form_plain (p : string) :
  contains "#" p = false -> contains "?" p = false -> contains ";" p = false ->
  urlparse_origin_form p =
    Ok {| scheme := ""; netloc := ""; path := p; params := ""; query := "";
          fragment := "" |}.
Proof.
  intros Hhash Hquery Hsemi. unfold urlparse_origin_form.
  now rewrite (split1_absent "#" p Hhash), (split1_absent "?" p Hquery), Hsemi.
Qed.

(** X15.  Every file that a relative name reaches from the served root is
    served.  For a name [rel] without [#], [?] and [;] that is not empty and
    does not start with [api/], the request [/rel] opens [./rel] and, when
    the file opens and reads, answers 200 with its bytes.  Nothing about the
    name is checked: it may climb with [..], and [./api/health] is reached as
    [/./api/health]. *)
Theorem any_file_served (w : world) (n : nat) (rel : string) (data : bytes) :
  origin_form ("/" +:+ rel) = true ->
  contains "#" rel = false -> contains "?" rel = false -> contains ";" rel = false ->
  rel <> "" ->
  startswith rel "api/" = false ->
  fs w ("./" +:+ rel) = Ok (File (Ok data)) ->
  do_GET urlparse_origin_form ("/" +:+ rel) w n =
    Run (Ok tt)
      [ Print ("Request received: /" +:+ rel);
        Open ("./" +:+ rel);
        SendResponse 200;
        SendHeader "Content-type" (content_type ("/" +:+ rel));
        EndHeaders;
        WfileWrite data ] n.
Proof.
  intros _ Hhash Hquery Hsemi Hrel Hapi Hfile.
  assert (Hparse := urlparse_origin_form_plain ("/" +:+ rel) Hhash Hquery Hsemi).
  assert (Hstatic : static_path ("/" +:+ rel) = "/" +:+ rel).
  { unfold static_path. change ("/" +:+ rel) with (String "/" rel).
    destruct (String.eqb_spec (String "/" rel) "/") as [E|]; [|reflexivity].
    injection E as E. contradiction. }
  change (startswith rel "api/") with (startswith ("/" +:+ rel) "/api/") in Hapi.
  change ("./" +:+ rel) with ("." +:+ ("/" +:+ rel)) in Hfile |- *.
  change ("Request received: /" +:+ rel) with ("Request received: " +:+ ("/" +:+ rel)).
  unfold do_GET. run_handler. rewrite Hparse. run_handler. cbn [path].
  rewrite Hapi, Hstatic. run_handler. rewrite Hfile. reflexivity.
Qed.

Lemma any_file_served_witness :
  response (do_GET urlparse_origin_form "/./api/health" Scenarios.shadowed 0%nat) =
    static_response 200 "application/octet-stream" (b "file, not route") /\
  response (do_GET urlparse_origin_form "/../etc/passwd" Examples.demo 0%nat) =
    static_response 200 "application/octet-stream" (b "root:x:0:0").
Proof.
  split.
  - exact (f_equal response
             (any_file_served Scenarios.shadowed 0%nat "./api/health"
                (b "file, not route") eq_refl eq_refl eq_refl eq_refl
                ltac:(discriminate) eq_refl eq_refl)).
  - exact (f_equal response
             (any_file_served Examples.demo 0%nat "../etc/passwd"
                (b "root:x:0:0") eq_refl eq_refl eq_refl eq_refl
                ltac:(discriminate) eq_refl eq_refl)).
Defined.

(** X16.  Where a body comes from.  Whatever a static request writes as a
    body is the literal [404 Not Found] or the whole content of a file that
    the same request opened; the handler writes nothing else. *)
Theorem body_provenance (urlparse : string -> result ParseResult)
    (w : world) (n : nat) (raw : string) (pr : ParseResult) (data : bytes) :
  urlparse raw = Ok pr ->
  startswith (path pr) "/api/" = false ->
  In (WfileWrite data) (emitted (do_GET urlparse raw w n)) ->
  data = b "404 Not Found" \/
  exists name : string,
    In name (opened (do_GET urlparse raw w n)) /\ fs w name = Ok (File (Ok data)).
Proof.
  intros Hparse Hapi.
  unfold do_GET; run_handler; rewrite Hparse; run_handler; rewrite Hapi;
    run_handler.
  destruct (fs w ("." +:+ static_path (path pr))) as [[[d|[]]]|[]] eqn:Hasset;
    run_handler;
    try (intros Hin; repeat (destruct Hin as [Hin|Hin]; try discriminate);
         try contradiction; injection Hin as <-; right;
         exists ("." +:+ static_path (path pr)); split; [now left | exact Hasset]);
    destruct (fs w "./index.html") as [[[d'|[]]]|[]] eqn:Hindex; run_handler;
    intros Hin; repeat (destruct Hin as [Hin|Hin]; try discriminate);
    try contradiction; injection Hin as <-;
    first [ left; reflexivity
          | right; exists "./index.html"; split; [right; now left | exact Hindex] ].
Qed.

Lemma body_provenance_witness :
  b "console.log(1)" = b "404 Not Found" \/
  exists name : string,
    In name (opened (do_GET urlparse_origin_form "/app.js" Examples.demo 0%nat)) /\
    fs Examples.demo name = Ok (File (Ok (b "console.log(1)"))).
Proof.
  apply (body_provenance urlparse_origin_form Examples.demo 0%nat "/app.js" _
           (b "console.log(1)") eq_refl eq_refl).
  vm_compute. tauto.
Defined.

(** ** On the wire: the headers that the library adds *)

Import Wire.



Lemma wire_known (server : string) (dates : nat -> string) (l : list event) :
  Forall known_event l ->
  forall k : nat, Forall known_wire_event (wire server dates k l).
Proof.
  induction 1 as [|e l He Hl IH]; intros k; [apply List.Forall_nil|].
  destruct e; simpl in *;
    repeat (apply List.Forall_cons;
            [first [exact I | exact He | left; exact He
                   | right; left; reflexivity | right; right; reflexivity]|]);
    apply IH.
Qed.




(** X3.  What reaches the wire.  Whatever the request and the world, the only
    statuses are 200 and 404, and the only headers are the [Content-type]
    that the handler sends, with one of seven values, and the [Server] and
    [Date] that [send_response] adds.  There is never a 500, a redirect or a
    [Content-Length]. *)
Theorem only_known_events_on_the_wire (urlparse : string -> result ParseResult)
    (w : world) (n : nat) (raw : string) (server : string) (dates : nat -> string) :
  Forall known_wire_event (wire server dates 0 (emitted (do_GET urlparse raw w n))).
Proof. apply wire_known. apply only_known_events. Qed.

(** X8.  A static request reads no environment variable: with the same files
    and the same clock its run is the same under any two environments, and so
    is its response on the wire. *)
Theorem static_ignores_environment
    (urlparse : string -> result ParseResult) (raw : string) (pr : ParseResult)
    (files : string -> result file) (env1 env2 : gmap string string)
    (clock : nat -> struct_time) (n : nat) (server : string) (dates : nat -> string) :
  urlparse raw = Ok pr ->
  startswith (path pr) "/api/" = false ->
  do_GET urlparse raw (World files env1 clock) n =
    do_GET urlparse raw (World files env2 clock) n /\
  wire server dates 0 (emitted (do_GET urlparse raw (World files env1 clock) n)) =
    wire server dates 0 (emitted (do_GET urlparse raw (World files env2 clock) n)).
Proof.
  intros Hparse Hapi.
  destruct (static_ignores_environment_and_clock urlparse raw pr files env1 env2
              clock clock n Hparse Hapi) as [Hrun _].
  split; [exact Hrun | now rewrite Hrun].
Qed.

Lemma static_ignores_environment_witness :
  do_GET urlparse_origin_form "/app.js"
    (World Examples.site Examples.rpc_env Examples.ticking) 3%nat =
  do_GET urlparse_origin_form "/app.js"
    (World Examples.site Scenarios.key_env Examples.ticking) 3%nat.
Proof.
  exact (proj1 (static_ignores_environment urlparse_origin_form "/app.js" _
                  Examples.site Examples.rpc_env Scenarios.key_env Examples.ticking
                  3%nat "" (fun _ => "") eq_refl eq_refl)).
Defined.
